(** * pennylane_qiskit.ibmq : the constructor of [IBMQDevice]

    A shallow embedding of [IBMQDevice.__init__]
    (src/pennylane_qiskit/ibmq.py, lines 73-117) and the properties of its
    credential resolution, account activation / lookup and provider
    delegation.

    The constructor is straight-line code over three external parties:
    the process environment ([os.getenv]), the [qiskit.IBMQ] account
    object and the parent class [QiskitDevice].  None of them is defined
    in ibmq.py, so they are the fields of a [world] the constructor runs
    in: every call into them either returns a value or raises, and the
    constructor is a computation that reads the world, logs each call it
    makes, and ends by returning or by raising. *)

From stdpp Require Import base option list strings gmap.
From Stdlib Require Import ZArith Lia Sorted.

Open Scope string_scope.

(** ** Python values *)

Module Py.

(** The values the constructor handles.  [PyObj] is an opaque object (a
    provider, an account record, ...): all the constructor ever asks of
    one is its identity and its truth value ([__bool__] / [__len__]). *)
#[warnings="-register-all"] Inductive pyval : Type :=
| PyNone
| PyBool (b : bool)
| PyInt (n : Z)
| PyStr (s : string)
| PyList (xs : list pyval)
| PyObj (name : string) (truth : bool).

(** [bool(v)] *)
Definition truthy (v : pyval) : bool :=
  match v with
  | PyNone => false
  | PyBool b => b
  | PyInt n => negb (n =? 0)%Z
  | PyStr s => match s with EmptyString => false | String _ _ => true end
  | PyList xs => match xs with [] => false | _ :: _ => true end
  | PyObj _ t => t
  end.

(** [v is None] *)
Definition is_none (v : pyval) : bool :=
  match v with PyNone => true | _ => false end.

(** [a or b] on values already computed. *)
Definition py_or (a b : pyval) : pyval := if truthy a then a else b.

(** [d.get(key, default)] *)
Definition dict_get (d : gmap string pyval) (key : string) (default : pyval)
  : pyval :=
  match d !! key with Some v => v | None => default end.

(** Exceptions.  [IBMQAccountError] stands for an instance of
    [qiskit.providers.ibmq.exceptions.IBMQAccountError] (or of a subclass:
    exactly what [except IBMQAccountError] catches); [OtherError] is an
    instance of any other class. *)
Inductive exn : Type :=
| IBMQAccountError (msg : string)
| OtherError (cls msg : string).

Definition is_account_error (e : exn) : bool :=
  match e with IBMQAccountError _ => true | OtherError _ _ => false end.

(** How a call ends. *)
Inductive outcome (A : Type) : Type :=
| Ok (a : A)
| Raise (e : exn).
Arguments Ok {A} a.
Arguments Raise {A} e.

Definition raised {A} (r : outcome A) : bool :=
  match r with Ok _ => false | Raise _ => true end.

Definition raised_account_error {A} (r : outcome A) : bool :=
  match r with Ok _ => false | Raise e => is_account_error e end.

End Py.
Import Py.

(** ** The world around the constructor *)

(** What [qiskit.IBMQ] answers to each of the calls the constructor can
    make.  The constructor makes each call at most once, so one answer per
    method describes any session. *)
Record IBMQ_api : Type := {
  enable_account : pyval -> option pyval -> outcome unit;
  active_account : outcome pyval;
  active_accounts : outcome pyval;
  load_accounts : outcome unit;
  load_account : outcome unit;
  get_provider : outcome pyval
}.

Record world : Type := {
  environ : gmap string string;
  IBMQ : IBMQ_api;
  (** [QiskitDevice.__init__(wires=, provider=, backend=, shots=, **kwargs)] *)
  QiskitDevice_init :
    pyval -> pyval -> pyval -> pyval -> gmap string pyval -> outcome unit
}.

(** The calls the constructor makes, as they appear in its log. *)
Inductive event : Type :=
| Getenv (name : string)
| EnableAccount (token : pyval) (url : option pyval)
| ActiveAccount
| ActiveAccounts
| LoadAccounts
| LoadAccount
| GetProvider
| ParentInit (wires provider backend shots : pyval)
             (kwargs : gmap string pyval).

(** ** Computations: read the world, log calls, return or raise *)

Definition M (A : Type) : Type := world -> outcome A * list event.

Definition ret {A} (a : A) : M A := fun _ => (Ok a, []).

Definition bind {A B} (m : M A) (k : A -> M B) : M B :=
  fun w =>
    match m w with
    | (Ok a, t1) => let '(r, t2) := k a w in (r, (t1 ++ t2)%list)
    | (Raise e, t1) => (Raise e, t1)
    end.

Definition raise {A} (e : exn) : M A := fun _ => (Raise e, []).

(** A call into the world: log it, then end as the world says. *)
Definition call {A} (ev : event) (answer : world -> outcome A) : M A :=
  fun w => (answer w, [ev]).

(** [try: body  except IBMQAccountError: handler] *)
Definition try_except_account {A} (body handler : M A) : M A :=
  fun w =>
    match body w with
    | (Raise (IBMQAccountError _), t1) =>
        let '(r, t2) := handler w in (r, (t1 ++ t2)%list)
    | other => other
    end.

Notation "'do' x <- m ; k" := (bind m (fun x => k))
  (at level 10, x name, m at level 100, k at level 200).

(** ** The calls *)

(** [os.getenv(name)]: the string bound to [name], or [None]. *)
Definition getenv_value (w : world) (name : string) : pyval :=
  match environ w !! name with
  | Some s => PyStr s
  | None => PyNone
  end.

Definition os_getenv (name : string) : M pyval :=
  call (Getenv name) (fun w => Ok (getenv_value w name)).

Definition IBMQ_enable_account (token : pyval) (url : option pyval) : M unit :=
  call (EnableAccount token url) (fun w => enable_account (IBMQ w) token url).
Definition IBMQ_active_account : M pyval :=
  call ActiveAccount (fun w => active_account (IBMQ w)).
Definition IBMQ_active_accounts : M pyval :=
  call ActiveAccounts (fun w => active_accounts (IBMQ w)).
Definition IBMQ_load_accounts : M unit :=
  call LoadAccounts (fun w => load_accounts (IBMQ w)).
Definition IBMQ_load_account : M unit :=
  call LoadAccount (fun w => load_account (IBMQ w)).
Definition IBMQ_get_provider : M pyval :=
  call GetProvider (fun w => get_provider (IBMQ w)).
Definition super_init (wires provider backend shots : pyval)
    (kwargs : gmap string pyval) : M unit :=
  call (ParentInit wires provider backend shots kwargs)
       (fun w => QiskitDevice_init w wires provider backend shots kwargs).

(** ** [IBMQDevice.__init__] *)

Definition no_account_message : string :=
  "No active IBM Q account, and no IBM Q token provided.".

(** Lines 74-75: [os.getenv(NAME) or kwargs.get(key, None)]. *)
Definition resolve (env_name key : string) (kwargs : gmap string pyval)
  : M pyval :=
  do from_env <- os_getenv env_name;
  ret (py_or from_env (dict_get kwargs key PyNone)).

(** Line 96: [IBMQ.active_account() is None and not IBMQ.active_accounts()];
    [and] evaluates its right operand only when the left one holds. *)
Definition no_active_account : M bool :=
  do v2 <- IBMQ_active_account;
  if is_none v2
  then (do v1 <- IBMQ_active_accounts; ret (negb (truthy v1)))
  else ret false.

(** Lines 96-110: the lookup of a cached account.  The
    [warnings.catch_warnings()] block around it only silences deprecation
    messages and is left out. *)
Definition account_lookup : M unit :=
  do none_active <- no_active_account;
  if none_active
  then try_except_account IBMQ_load_accounts
         (try_except_account IBMQ_load_account
            (raise (IBMQAccountError no_account_message)))
  else ret tt.

(** Lines 77-110. *)
Definition account_step (token url : pyval) : M unit :=
  if negb (is_none token)
  then
    let ibmq_kwargs := if negb (is_none url) then Some url else None in
    IBMQ_enable_account token ibmq_kwargs
  else account_lookup.

(** Line 115: [provider or IBMQ.get_provider()]; [or] evaluates its right
    operand only when the left one is falsy. *)
Definition resolve_provider (provider : pyval) : M pyval :=
  if truthy provider then ret provider else IBMQ_get_provider.

Definition IBMQDevice_init (wires provider backend shots : pyval)
    (kwargs : gmap string pyval) : M unit :=
  do token <- resolve "IBMQX_TOKEN" "ibmqx_token" kwargs;
  do url <- resolve "IBMQX_URL" "ibmqx_url" kwargs;
  do _ <- account_step token url;
  do p <- resolve_provider provider;
  super_init wires p backend shots kwargs.

(** The defaults of the signature:
    [provider=None, backend="ibmq_qasm_simulator", shots=1024]. *)
Definition default_provider : pyval := PyNone.
Definition default_backend : pyval := PyStr "ibmq_qasm_simulator".
Definition default_shots : pyval := PyInt 1024.

(** ** Observations on a run *)

(** The token and the URL that lines 74-75 compute in a world. *)
Definition token_of (w : world) (kwargs : gmap string pyval) : pyval :=
  py_or (getenv_value w "IBMQX_TOKEN") (dict_get kwargs "ibmqx_token" PyNone).
Definition url_of (w : world) (kwargs : gmap string pyval) : pyval :=
  py_or (getenv_value w "IBMQX_URL") (dict_get kwargs "ibmqx_url" PyNone).

(** The keyword dictionary line 80 builds for [enable_account]. *)
Definition ibmq_kwargs_of (url : pyval) : option pyval :=
  if negb (is_none url) then Some url else None.

Definition outcome_of {A} (r : outcome A * list event) : outcome A := fst r.
Definition trace_of {A} (r : outcome A * list event) : list event := snd r.

Definition is_enable (ev : event) : bool :=
  match ev with EnableAccount _ _ => true | _ => false end.
Definition is_lookup (ev : event) : bool :=
  match ev with
  | ActiveAccount | ActiveAccounts | LoadAccounts | LoadAccount => true
  | _ => false
  end.
Definition is_load_v1 (ev : event) : bool :=
  match ev with LoadAccounts => true | _ => false end.
Definition is_load_v2 (ev : event) : bool :=
  match ev with LoadAccount => true | _ => false end.
Definition is_get_provider (ev : event) : bool :=
  match ev with GetProvider => true | _ => false end.
Definition is_parent (ev : event) : bool :=
  match ev with ParentInit _ _ _ _ _ => true | _ => false end.

(** The URL an event hands to the SDK, if any. *)
Definition url_passed (ev : event) : option pyval :=
  match ev with EnableAccount _ u => u | _ => None end.

(** The same world with another process environment. *)
Definition with_environ (env : gmap string string) (w : world) : world :=
  {| environ := env; IBMQ := IBMQ w; QiskitDevice_init := QiskitDevice_init w |}.

(** ** The paths of a run, and predicates on worlds and calls *)

(** Every way the lookup can run: what the SDK answered, how the lookup
    ends, and the calls it made. *)
Inductive lookup_path (w : world) : outcome unit * list event -> Prop :=
| path_probe_v2_raises e :
    active_account (IBMQ w) = Raise e ->
    lookup_path w (Raise e, [ActiveAccount])
| path_active_v2 v :
    active_account (IBMQ w) = Ok v -> is_none v = false ->
    lookup_path w (Ok tt, [ActiveAccount])
| path_probe_v1_raises e :
    active_account (IBMQ w) = Ok PyNone ->
    active_accounts (IBMQ w) = Raise e ->
    lookup_path w (Raise e, [ActiveAccount; ActiveAccounts])
| path_active_v1 v :
    active_account (IBMQ w) = Ok PyNone ->
    active_accounts (IBMQ w) = Ok v -> truthy v = true ->
    lookup_path w (Ok tt, [ActiveAccount; ActiveAccounts])
| path_loaded_v1 v :
    active_account (IBMQ w) = Ok PyNone ->
    active_accounts (IBMQ w) = Ok v -> truthy v = false ->
    load_accounts (IBMQ w) = Ok tt ->
    lookup_path w (Ok tt, [ActiveAccount; ActiveAccounts; LoadAccounts])
| path_load_v1_raises v c m :
    active_account (IBMQ w) = Ok PyNone ->
    active_accounts (IBMQ w) = Ok v -> truthy v = false ->
    load_accounts (IBMQ w) = Raise (OtherError c m) ->
    lookup_path w (Raise (OtherError c m),
                   [ActiveAccount; ActiveAccounts; LoadAccounts])
| path_loaded_v2 v m1 :
    active_account (IBMQ w) = Ok PyNone ->
    active_accounts (IBMQ w) = Ok v -> truthy v = false ->
    load_accounts (IBMQ w) = Raise (IBMQAccountError m1) ->
    load_account (IBMQ w) = Ok tt ->
    lookup_path w (Ok tt,
                   [ActiveAccount; ActiveAccounts; LoadAccounts; LoadAccount])
| path_load_v2_raises v m1 c m :
    active_account (IBMQ w) = Ok PyNone ->
    active_accounts (IBMQ w) = Ok v -> truthy v = false ->
    load_accounts (IBMQ w) = Raise (IBMQAccountError m1) ->
    load_account (IBMQ w) = Raise (OtherError c m) ->
    lookup_path w (Raise (OtherError c m),
                   [ActiveAccount; ActiveAccounts; LoadAccounts; LoadAccount])
| path_no_account v m1 m2 :
    active_account (IBMQ w) = Ok PyNone ->
    active_accounts (IBMQ w) = Ok v -> truthy v = false ->
    load_accounts (IBMQ w) = Raise (IBMQAccountError m1) ->
    load_account (IBMQ w) = Raise (IBMQAccountError m2) ->
    lookup_path w (Raise (IBMQAccountError no_account_message),
                   [ActiveAccount; ActiveAccounts; LoadAccounts; LoadAccount]).

(** Every way the provider can be resolved (line 115). *)
Inductive provider_path (provider : pyval) (w : world)
  : outcome pyval * list event -> Prop :=
| path_given :
    truthy provider = true ->
    provider_path provider w (Ok provider, [])
| path_default p :
    truthy provider = false -> get_provider (IBMQ w) = Ok p ->
    provider_path provider w (Ok p, [GetProvider])
| path_default_raises e :
    truthy provider = false -> get_provider (IBMQ w) = Raise e ->
    provider_path provider w (Raise e, [GetProvider]).

(** No account is active under either scheme: [active_account()] answers
    [None] and [active_accounts()] answers something empty. *)
Definition no_account_active (w : world) : bool :=
  match active_account (IBMQ w) with
  | Ok v2 =>
      is_none v2 &&
      match active_accounts (IBMQ w) with
      | Ok v1 => negb (truthy v1)
      | Raise _ => false
      end
  | Raise _ => false
  end.

(** A disk load fails: it raises what [except IBMQAccountError] catches. *)
Definition load_fails (r : outcome unit) : bool := raised_account_error r.

(** No token, no active account, and both disk loads fail. *)
Definition no_usable_account (w : world) (kwargs : gmap string pyval) : bool :=
  is_none (token_of w kwargs) && no_account_active w
  && load_fails (load_accounts (IBMQ w)) && load_fails (load_account (IBMQ w)).

(** The lookup finds an account: one is active under the v2 scheme, or
    else under the v1 scheme, or else the v1 disk load succeeds, or else
    (that load having failed) the v2 disk load succeeds. *)
Definition account_found (w : world) : bool :=
  match active_account (IBMQ w) with
  | Ok v2 =>
      if is_none v2 then
        match active_accounts (IBMQ w) with
        | Ok v1 =>
            if truthy v1 then true
            else
              match load_accounts (IBMQ w) with
              | Ok _ => true
              | Raise e =>
                  is_account_error e &&
                  match load_account (IBMQ w) with
                  | Ok _ => true
                  | Raise _ => false
                  end
              end
        | Raise _ => false
        end
      else true
  | Raise _ => false
  end.

(** The step of the constructor a call belongs to: credential resolution,
    account activation or lookup, provider delegation. *)
Definition step_of (ev : event) : nat :=
  match ev with
  | Getenv _ => 1
  | EnableAccount _ _
  | ActiveAccount | ActiveAccounts | LoadAccounts | LoadAccount => 2
  | GetProvider | ParentInit _ _ _ _ _ => 3
  end.

(** The fallbacks of the lookup, in order. *)
Definition lookup_order : list event :=
  [ActiveAccount; ActiveAccounts; LoadAccounts; LoadAccount].

(** ** Sample worlds *)

Module Sample.

(** An SDK session with nothing cached: no active account and nothing on
    disk under either scheme; activation and provider lookup work. *)
Definition fresh_session : IBMQ_api := {|
  enable_account := fun _ _ => Ok tt;
  active_account := Ok PyNone;
  active_accounts := Ok (PyList []);
  load_accounts := Raise (IBMQAccountError "No IBMQ credentials found on disk.");
  load_account := Raise (IBMQAccountError "No Quantum Experience credentials found.");
  get_provider := Ok (PyObj "default-provider" true)
|}.

(** A session in which an account is already enabled: activating a
    second one is refused by the SDK. *)
Definition busy_session : IBMQ_api := {|
  enable_account := fun _ _ =>
    Raise (IBMQAccountError "An IBM Q Experience v2 account is already enabled.");
  active_account := Ok (PyObj "account" true);
  active_accounts := Ok (PyList []);
  load_accounts := Ok tt;
  load_account := Ok tt;
  get_provider := Ok (PyObj "default-provider" true)
|}.

(** A session with an active account for which the SDK finds no
    provider. *)
Definition no_provider_session : IBMQ_api := {|
  enable_account := fun _ _ => Ok tt;
  active_account := Ok (PyObj "account" true);
  active_accounts := Ok (PyList []);
  load_accounts := Ok tt;
  load_account := Ok tt;
  get_provider := Raise (OtherError "IBMQProviderError" "No provider matching the criteria.")
|}.

(** A session with a v2 account stored on disk only. *)
Definition disk_v2_session : IBMQ_api := {|
  enable_account := fun _ _ => Ok tt;
  active_account := Ok PyNone;
  active_accounts := Ok (PyList []);
  load_accounts := Raise (IBMQAccountError "No IBMQ credentials found on disk.");
  load_account := Ok tt;
  get_provider := Ok (PyObj "default-provider" true)
|}.

Definition parent_ok (wires provider backend shots : pyval)
    (kwargs : gmap string pyval) : outcome unit := Ok tt.

Definition mk_world (env : gmap string string) (sdk : IBMQ_api) : world :=
  {| environ := env; IBMQ := sdk; QiskitDevice_init := parent_ok |}.

Definition two_wires : pyval := PyInt 2.

End Sample.

(** ** What a logged call answered *)

(** The error a call ended with, if it raised. *)
Definition raised_error {A} (r : outcome A) : option exn :=
  match r with Ok _ => None | Raise e => Some e end.

(** The error the world answers a logged call with, if it answers with
    one.  [os.getenv] never raises. *)
Definition error_of (w : world) (ev : event) : option exn :=
  match ev with
  | Getenv _ => None
  | EnableAccount token url => raised_error (enable_account (IBMQ w) token url)
  | ActiveAccount => raised_error (active_account (IBMQ w))
  | ActiveAccounts => raised_error (active_accounts (IBMQ w))
  | LoadAccounts => raised_error (load_accounts (IBMQ w))
  | LoadAccount => raised_error (load_account (IBMQ w))
  | GetProvider => raised_error (get_provider (IBMQ w))
  | ParentInit wires provider backend shots kwargs =>
      raised_error (QiskitDevice_init w wires provider backend shots kwargs)
  end.

(** A call the constructor makes outside any [try]: every call but the two
    disk loads of lines 100 and 104. *)
Definition is_unguarded (ev : event) : bool :=
  match ev with LoadAccounts | LoadAccount => false | _ => true end.

(** None of the calls of a log that were made outside any [try] raised an
    account error. *)
Definition unguarded_calls_made_raise_no_account_error
    (w : world) (trace : list event) : Prop :=
  forall ev err,
    In ev trace -> is_unguarded ev = true -> error_of w ev = Some err ->
    is_account_error err = false.

(** The state line 112 announces ("IBM Q account is now enabled"): the
    token was accepted by [enable_account], or, without a token, the
    lookup found an account. *)
Definition account_enabled (w : world) (kwargs : gmap string pyval) : bool :=
  let token := token_of w kwargs in
  if is_none token then account_found w
  else negb (raised (enable_account (IBMQ w) token
                       (ibmq_kwargs_of (url_of w kwargs)))).

(** A call of the third step: provider lookup or parent constructor. *)
Definition is_delegation (ev : event) : bool :=
  match ev with GetProvider | ParentInit _ _ _ _ _ => true | _ => false end.

(** The calls made before the parent constructor takes over. *)
Definition own_calls (trace : list event) : list event :=
  List.filter (fun ev => negb (is_parent ev)) trace.

(** ** More sample worlds *)

Module Sample2.

(** A session whose v1 disk load breaks with an error that is no account
    error (the method is gone from the SDK). *)
Definition broken_v1_session : IBMQ_api := {|
  enable_account := fun _ _ => Ok tt;
  active_account := Ok PyNone;
  active_accounts := Ok (PyList []);
  load_accounts := Raise (OtherError "AttributeError" "load_accounts");
  load_account := Ok tt;
  get_provider := Ok (PyObj "default-provider" true)
|}.

(** A session whose v2 disk load breaks with an error that is no account
    error, after the v1 load found nothing. *)
Definition broken_v2_session : IBMQ_api := {|
  enable_account := fun _ _ => Ok tt;
  active_account := Ok PyNone;
  active_accounts := Ok (PyList []);
  load_accounts := Raise (IBMQAccountError "No IBMQ credentials found on disk.");
  load_account := Raise (OtherError "OSError" "qiskitrc is not readable");
  get_provider := Ok (PyObj "default-provider" true)
|}.

(** A session with an active v2 account in which every other lookup call
    would break. *)
Definition active_v2_session : IBMQ_api := {|
  enable_account := fun _ _ => Ok tt;
  active_account := Ok (PyObj "account" true);
  active_accounts := Raise (OtherError "AttributeError" "active_accounts");
  load_accounts := Raise (OtherError "AttributeError" "load_accounts");
  load_account := Raise (OtherError "OSError" "qiskitrc is not readable");
  get_provider := Ok (PyObj "default-provider" true)
|}.

(** A session with an active v1 account only. *)
Definition active_v1_session : IBMQ_api := {|
  enable_account := fun _ _ => Ok tt;
  active_account := Ok PyNone;
  active_accounts := Ok (PyList [PyObj "v1-credentials" true]);
  load_accounts := Raise (OtherError "AttributeError" "load_accounts");
  load_account := Raise (OtherError "OSError" "qiskitrc is not readable");
  get_provider := Ok (PyObj "default-provider" true)
|}.

(** A session that rejects the token. *)
Definition rejecting_session : IBMQ_api := {|
  enable_account := fun _ _ =>
    Raise (OtherError "IBMQApiError" "Login failed.");
  active_account := Ok PyNone;
  active_accounts := Ok (PyList []);
  load_accounts := Ok tt;
  load_account := Ok tt;
  get_provider := Ok (PyObj "default-provider" true)
|}.

(** A parent constructor that knows one backend only. *)
Definition parent_one_backend (wires provider backend shots : pyval)
    (kwargs : gmap string pyval) : outcome unit :=
  match backend with
  | PyStr "ibmq_qasm_simulator" => Ok tt
  | _ => Raise (OtherError "ValueError" "Could not find backend")
  end.

Definition mk_world (env : gmap string string) (sdk : IBMQ_api) : world :=
  {| environ := env; IBMQ := sdk; QiskitDevice_init := parent_one_backend |}.

End Sample2.

(** ** Proof steps *)

Ltac sorted_by_step :=
  repeat match goal with
         | |- StronglySorted _ _ => constructor
         | |- Forall _ _ => constructor
         | |- _ <= _ => simpl; lia
         end.

Ltac not_in_trace H :=
  simpl in H;
  repeat match type of H with
         | _ \/ _ => destruct H as [H|H]
         | False => destruct H
         | _ = _ => discriminate H
         end.

Ltac forall_pieces :=
  repeat match goal with
         | |- Forall _ (_ ++ _) => apply Forall_app_2
         | |- Forall _ (_ :: _) => constructor; [reflexivity|]
         | |- Forall _ [] => constructor
         | |- Forall _ _ => assumption
         end.

(** ** Unfolding the constructor *)

Lemma resolve_run env_name key kwargs w :
  resolve env_name key kwargs w =
  (Ok (py_or (getenv_value w env_name) (dict_get kwargs key PyNone)),
   [Getenv env_name]).
Proof. reflexivity. Qed.

(** The constructor, one step after the other. *)
Lemma IBMQDevice_init_run wires provider backend shots kwargs w :
  IBMQDevice_init wires provider backend shots kwargs w =
  let pre := [Getenv "IBMQX_TOKEN"; Getenv "IBMQX_URL"] in
  match account_step (token_of w kwargs) (url_of w kwargs) w with
  | (Raise e, t1) => (Raise e, pre ++ t1)
  | (Ok _, t1) =>
      match resolve_provider provider w with
      | (Raise e, t2) => (Raise e, pre ++ t1 ++ t2)
      | (Ok p, t2) =>
          (QiskitDevice_init w wires p backend shots kwargs,
           pre ++ t1 ++ t2 ++ [ParentInit wires p backend shots kwargs])
      end
  end%list.
Proof.
  unfold IBMQDevice_init, bind at 1 2 3. rewrite !resolve_run.
  fold (token_of w kwargs) (url_of w kwargs).
  destruct (account_step _ _ w) as [[[]|e] t1]; [|reflexivity].
  unfold bind. destruct (resolve_provider provider w) as [[p|e] t2];
    [|reflexivity].
  unfold super_init, call. reflexivity.
Qed.

Lemma account_step_token token url w :
  is_none token = false ->
  account_step token url w =
  (enable_account (IBMQ w) token (ibmq_kwargs_of url),
   [EnableAccount token (ibmq_kwargs_of url)]).
Proof. intros H. unfold account_step. rewrite H. reflexivity. Qed.

Lemma account_step_no_token token url w :
  is_none token = true -> account_step token url w = account_lookup w.
Proof. intros H. unfold account_step. rewrite H. reflexivity. Qed.

(** ** The account lookup (lines 96-110), path by path *)

Lemma is_none_true v : is_none v = true -> v = PyNone.
Proof. destruct v; simpl; congruence. Qed.

Lemma account_lookup_path w : lookup_path w (account_lookup w).
Proof.
  unfold account_lookup, no_active_account, try_except_account, bind,
    IBMQ_active_account, IBMQ_active_accounts, IBMQ_load_accounts,
    IBMQ_load_account, call, raise, ret.
  destruct (active_account (IBMQ w)) as [v2|e2] eqn:H2; simpl;
    [|eapply path_probe_v2_raises; eauto].
  destruct (is_none v2) eqn:Hv2; simpl;
    [|eapply path_active_v2; eauto].
  apply is_none_true in Hv2; subst v2.
  destruct (active_accounts (IBMQ w)) as [v1|e1] eqn:H1; simpl;
    [|eapply path_probe_v1_raises; eauto].
  destruct (truthy v1) eqn:Hv1; simpl;
    [eapply path_active_v1; eauto|].
  destruct (load_accounts (IBMQ w)) as [[]|[l1|k1 l1]] eqn:L1; simpl;
    [eapply path_loaded_v1; eauto| |eapply path_load_v1_raises; eauto].
  destruct (load_account (IBMQ w)) as [[]|[l2|k2 l2]] eqn:L2; simpl.
  - eapply path_loaded_v2; eauto.
  - eapply path_no_account; eauto.
  - eapply path_load_v2_raises; eauto.
Qed.

Lemma resolve_provider_path provider w :
  provider_path provider w (resolve_provider provider w).
Proof.
  unfold resolve_provider, IBMQ_get_provider, call, ret.
  destruct (truthy provider) eqn:Hp; [apply path_given; exact Hp|].
  destruct (get_provider (IBMQ w)) as [p|e] eqn:Hg.
  - eapply path_default; eauto.
  - eapply path_default_raises; eauto.
Qed.

(** The lookup makes no activation call, hands no URL to the SDK and never
    reaches the parent class. *)
Lemma account_lookup_events w :
  Forall (fun ev => is_lookup ev = true) (trace_of (account_lookup w)).
Proof. destruct (account_lookup_path w); repeat constructor. Qed.

Lemma resolve_provider_events provider w :
  Forall (fun ev => is_get_provider ev = true)
         (trace_of (resolve_provider provider w)).
Proof. destruct (resolve_provider_path provider w); repeat constructor. Qed.

Lemma filter_nil_of_Forall {A} (P Q : A -> bool) (l : list A) :
  Forall (fun x => P x = true) l ->
  (forall x, P x = true -> Q x = false) ->
  List.filter Q l = [].
Proof.
  intros HP HPQ. induction HP as [|x l Hx _ IH]; [reflexivity|].
  simpl. rewrite (HPQ x Hx). exact IH.
Qed.

Lemma filter_provider_events (Q : event -> bool) provider w :
  Q GetProvider = false ->
  List.filter Q (trace_of (resolve_provider provider w)) = [].
Proof.
  intros HQ. apply (filter_nil_of_Forall is_get_provider).
  - apply resolve_provider_events.
  - intros [] Hev; try discriminate. exact HQ.
Qed.

(** ** Account activation (lines 77-81) *)

(** Calls of a kind that only the account step makes are the calls of
    that kind the account step made. *)
Lemma filter_step_events (Q : event -> bool)
    wires provider backend shots kwargs w :
  (forall name, Q (Getenv name) = false) ->
  Q GetProvider = false ->
  (forall wi p b s k, Q (ParentInit wi p b s k) = false) ->
  List.filter Q
    (trace_of (IBMQDevice_init wires provider backend shots kwargs w)) =
  List.filter Q
    (trace_of (account_step (token_of w kwargs) (url_of w kwargs) w)).
Proof.
  intros Henv Hget Hpar. rewrite IBMQDevice_init_run.
  pose proof (filter_provider_events Q provider w Hget) as Hp.
  destruct (account_step _ _ w) as [[[]|e] t1];
    unfold trace_of in *; cbn [fst snd] in *.
  - destruct (resolve_provider provider w) as [[p|e] t2]; cbn [fst snd] in *;
      rewrite !List.filter_app, Hp; simpl; rewrite !Henv, ?Hpar;
      rewrite ?List.app_nil_r; reflexivity.
  - rewrite List.filter_app. simpl. rewrite !Henv. reflexivity.
Qed.

(** The activation calls of the account step. *)
Lemma account_step_enable_events token url w :
  List.filter is_enable (trace_of (account_step token url w)) =
  if is_none token then [] else [EnableAccount token (ibmq_kwargs_of url)].
Proof.
  destruct (is_none token) eqn:Htok.
  - rewrite (account_step_no_token _ _ _ Htok).
    apply (filter_nil_of_Forall is_lookup); [apply account_lookup_events|].
    intros [] H; try discriminate; reflexivity.
  - rewrite (account_step_token _ _ _ Htok). reflexivity.
Qed.

(** C2: when a token is resolved, [IBMQ.enable_account] is called exactly
    once, with that token, and with the [url] keyword exactly when a URL is
    resolved; when no token is resolved it is not called at all. *)
Theorem enable_account_once_with_token wires provider backend shots kwargs w :
  let token := token_of w kwargs in
  let url := url_of w kwargs in
  List.filter is_enable
    (trace_of (IBMQDevice_init wires provider backend shots kwargs w)) =
  if is_none token then []
  else [EnableAccount token (if is_none url then None else Some url)].
Proof.
  intros token url.
  rewrite filter_step_events by (intros; reflexivity).
  rewrite account_step_enable_events. fold token url.
  destruct (is_none token); [reflexivity|].
  unfold ibmq_kwargs_of. destruct (is_none url); reflexivity.
Qed.

(** ** Credential resolution (lines 74-75) *)

(** The rest of the constructor does not look at the environment. *)
Lemma account_lookup_environ env w :
  account_lookup (with_environ env w) = account_lookup w.
Proof.
  unfold account_lookup, no_active_account, try_except_account, bind,
    IBMQ_active_account, IBMQ_active_accounts, IBMQ_load_accounts,
    IBMQ_load_account, call, raise, ret.
  change (IBMQ (with_environ env w)) with (IBMQ w).
  destruct (active_account (IBMQ w)) as [v2|e2]; [|reflexivity].
  destruct (is_none v2); [|reflexivity].
  change (IBMQ (with_environ env w)) with (IBMQ w).
  destruct (active_accounts (IBMQ w)) as [v1|e1]; [|reflexivity].
  simpl. destruct (truthy v1); reflexivity.
Qed.

Lemma account_step_environ env token url w :
  account_step token url (with_environ env w) = account_step token url w.
Proof.
  unfold account_step. destruct (negb (is_none token)); [reflexivity|].
  apply account_lookup_environ.
Qed.

Lemma resolve_provider_environ env provider w :
  resolve_provider provider (with_environ env w) = resolve_provider provider w.
Proof. unfold resolve_provider. destruct (truthy provider); reflexivity. Qed.

(** A run depends on the environment only through the token and the URL it
    resolves. *)
Lemma IBMQDevice_init_environ env wires provider backend shots kwargs w :
  token_of (with_environ env w) kwargs = token_of w kwargs ->
  url_of (with_environ env w) kwargs = url_of w kwargs ->
  IBMQDevice_init wires provider backend shots kwargs (with_environ env w) =
  IBMQDevice_init wires provider backend shots kwargs w.
Proof.
  intros Ht Hu. rewrite !IBMQDevice_init_run.
  rewrite Ht, Hu, account_step_environ, resolve_provider_environ.
  reflexivity.
Qed.

(** A non-empty environment value wins over the keyword. *)
Lemma token_of_env w kwargs s :
  environ w !! "IBMQX_TOKEN" = Some s -> s <> "" ->
  token_of w kwargs = PyStr s.
Proof.
  intros H Hs. unfold token_of, getenv_value, py_or. rewrite H.
  destruct s; [contradiction|reflexivity].
Qed.

(** An unset or empty environment value leaves the keyword. *)
Lemma token_of_keyword w kwargs :
  truthy (getenv_value w "IBMQX_TOKEN") = false ->
  token_of w kwargs = dict_get kwargs "ibmqx_token" PyNone.
Proof. intros H. unfold token_of, py_or. rewrite H. reflexivity. Qed.

(** C9: an empty [IBMQX_TOKEN] behaves as an unset one (the run is the run
    of the world without the variable, and the token is whatever the
    [ibmqx_token] keyword holds), whereas an empty [ibmqx_token] keyword is
    a token: it is not [None], and [enable_account] is called with it. *)
Theorem empty_env_token_unset_empty_keyword_token
    wires provider backend shots kwargs w :
  (environ w !! "IBMQX_TOKEN" = Some "" ->
     IBMQDevice_init wires provider backend shots kwargs w =
     IBMQDevice_init wires provider backend shots kwargs
       (with_environ (delete "IBMQX_TOKEN" (environ w)) w)
     /\ token_of w kwargs = dict_get kwargs "ibmqx_token" PyNone) /\
  (truthy (getenv_value w "IBMQX_TOKEN") = false ->
   kwargs !! "ibmqx_token" = Some (PyStr "") ->
     token_of w kwargs = PyStr ""
     /\ is_none (token_of w kwargs) = false
     /\ exists url,
         List.filter is_enable
           (trace_of (IBMQDevice_init wires provider backend shots kwargs w))
         = [EnableAccount (PyStr "") url]).
Proof.
  split.
  - intros He.
    assert (Hv : getenv_value w "IBMQX_TOKEN" = PyStr "")
      by (unfold getenv_value; rewrite He; reflexivity).
    assert (Hk : token_of w kwargs = dict_get kwargs "ibmqx_token" PyNone)
      by (apply token_of_keyword; rewrite Hv; reflexivity).
    split; [|exact Hk].
    symmetry. apply IBMQDevice_init_environ.
    + rewrite Hk. apply token_of_keyword.
      unfold getenv_value, with_environ; simpl.
      rewrite lookup_delete_eq. reflexivity.
    + unfold url_of, getenv_value, with_environ; simpl.
      rewrite lookup_delete_ne by discriminate. reflexivity.
  - intros He Hkw.
    assert (Ht : token_of w kwargs = PyStr "").
    { rewrite (token_of_keyword _ _ He). unfold dict_get. rewrite Hkw.
      reflexivity. }
    split; [exact Ht|]. split; [rewrite Ht; reflexivity|].
    eexists. rewrite filter_step_events by (intros; reflexivity).
    rewrite account_step_enable_events, Ht. reflexivity.
Qed.

(** C3: with [IBMQX_TOKEN] set in the environment and a different
    [ibmqx_token] keyword given, the token the constructor resolves and
    hands to [enable_account] is the environment's: the environment is
    consulted first and the keyword is the fallback, not the other way
    round. *)
Theorem environment_token_overrides_keyword :
  let w := Sample.mk_world {[ "IBMQX_TOKEN" := "ENVTOKEN" ]} Sample.fresh_session in
  let kwargs : gmap string pyval := {[ "ibmqx_token" := PyStr "KWTOKEN" ]} in
  dict_get kwargs "ibmqx_token" PyNone = PyStr "KWTOKEN" /\
  token_of w kwargs = PyStr "ENVTOKEN" /\
  List.filter is_enable
    (trace_of (IBMQDevice_init Sample.two_wires default_provider
                 default_backend default_shots kwargs w))
  = [EnableAccount (PyStr "ENVTOKEN") None].
Proof. vm_compute. repeat split. Qed.

(** Both halves of C9 at work: an empty [IBMQX_TOKEN] together with an
    empty [ibmqx_token] keyword. *)
Lemma empty_env_token_unset_empty_keyword_token_witness :
  let w := Sample.mk_world {[ "IBMQX_TOKEN" := "" ]} Sample.fresh_session in
  let kwargs : gmap string pyval := {[ "ibmqx_token" := PyStr "" ]} in
  let run := IBMQDevice_init Sample.two_wires default_provider
               default_backend default_shots kwargs in
  (run w = run (with_environ (delete "IBMQX_TOKEN" (environ w)) w) /\
   token_of w kwargs = dict_get kwargs "ibmqx_token" PyNone) /\
  (token_of w kwargs = PyStr "" /\
   is_none (token_of w kwargs) = false /\
   exists url,
     List.filter is_enable (trace_of (run w)) = [EnableAccount (PyStr "") url]).
Proof.
  intros w kwargs run.
  destruct (empty_env_token_unset_empty_keyword_token
              Sample.two_wires default_provider default_backend
              default_shots kwargs w) as [H1 H2].
  split; [apply H1; reflexivity | apply H2; reflexivity].
Defined.

(** ** The account error (lines 96-110) *)

(** Every complete run: without a token, one of the nine paths of the
    lookup; with a token, [enable_account] returning or raising; then, if
    the account step returned, one of the three ways of resolving the
    provider. *)
Ltac run_paths provider kwargs w :=
  rewrite ?IBMQDevice_init_run;
  let Htok := fresh "Htok" in
  destruct (is_none (token_of w kwargs)) eqn:Htok;
  [ rewrite ?(account_step_no_token _ _ _ Htok);
    destruct (account_lookup_path w) as
      [e H2|v H2 Hv|e H2 H1|v H2 H1 Hv|v H2 H1 Hv L1|v c m H2 H1 Hv L1
      |v m1 H2 H1 Hv L1 L2|v m1 c m H2 H1 Hv L1 L2|v m1 m2 H2 H1 Hv L1 L2]
  | rewrite ?(account_step_token _ _ _ Htok);
    destruct (enable_account (IBMQ w) (token_of w kwargs)
                (ibmq_kwargs_of (url_of w kwargs))) as [[]|ee] eqn:Hen ];
  cbn [fst snd trace_of outcome_of app];
  try match goal with
      | |- context [resolve_provider provider w] =>
          destruct (resolve_provider_path provider w) as [Hp|p Hp Hg|ep Hp Hg];
          cbn [fst snd trace_of outcome_of app]
      end.

(** The lookup raises its own error exactly when nothing is usable. *)
Lemma account_lookup_no_account w :
  no_account_active w && load_fails (load_accounts (IBMQ w))
  && load_fails (load_account (IBMQ w)) = true ->
  account_lookup w =
  (Raise (IBMQAccountError no_account_message),
   [ActiveAccount; ActiveAccounts; LoadAccounts; LoadAccount]).
Proof.
  unfold no_account_active, load_fails. intros H.
  destruct (account_lookup_path w) as
    [e H2|v H2 Hv|e H2 H1|v H2 H1 Hv|v H2 H1 Hv L1|v c m H2 H1 Hv L1
    |v m1 H2 H1 Hv L1 L2|v m1 c m H2 H1 Hv L1 L2|v m1 m2 H2 H1 Hv L1 L2];
    rewrite ?H2, ?H1, ?L1, ?L2 in H; simpl in H;
    rewrite ?Hv in H; simpl in H; try discriminate.
  reflexivity.
Qed.

(** Find the call of a log, given as a disjunction, that [rest] holds of. *)
Ltac some_call n path rest :=
  lazymatch n with
  | O => fail
  | S ?k =>
      first
        [ solve [do 2 eexists; (split; [path; left; reflexivity | rest])]
        | some_call k ltac:(path; right) rest ]
  end.

(** An error raised by a call made outside any [try] is the error of the
    run. *)
Lemma unguarded_error_reaches_caller
    wires provider backend shots kwargs w ev err :
  In ev (trace_of (IBMQDevice_init wires provider backend shots kwargs w)) ->
  is_unguarded ev = true ->
  error_of w ev = Some err ->
  outcome_of (IBMQDevice_init wires provider backend shots kwargs w)
    = Raise err.
Proof.
  run_paths provider kwargs w; intros Hin Hun Herr; simpl in Hin;
    repeat (destruct Hin as [Hin|Hin]); try (destruct Hin; fail);
    subst ev; try discriminate Hun; simpl in Herr;
    rewrite ?H2, ?H1, ?Hen, ?Hg in Herr; try discriminate Herr;
    try (injection Herr as <-; reflexivity);
    destruct (QiskitDevice_init w wires _ backend shots kwargs);
    simpl in Herr; congruence.
Qed.

(** An account error of a run is the constructor's own, raised when
    nothing is usable, or comes from a call made outside any [try]. *)
Lemma account_error_source wires provider backend shots kwargs w :
  raised_account_error
    (outcome_of (IBMQDevice_init wires provider backend shots kwargs w)) = true ->
  no_usable_account w kwargs = true \/
  exists ev err,
    In ev (trace_of (IBMQDevice_init wires provider backend shots kwargs w)) /\
    is_unguarded ev = true /\ error_of w ev = Some err /\
    is_account_error err = true.
Proof.
  unfold no_usable_account, no_account_active, load_fails.
  run_paths provider kwargs w; simpl;
    rewrite ?H2; simpl; rewrite ?H1; simpl; rewrite ?Hv; simpl;
    rewrite ?L1; simpl; rewrite ?L2; simpl;
    try match goal with
        | |- context [QiskitDevice_init w ?a ?b ?c ?d ?k] =>
            destruct (QiskitDevice_init w a b c d k) as [[]|pe] eqn:Hpar; simpl
        end;
    intros X; try discriminate X;
    try (left; reflexivity);
    right;
    some_call 8 idtac
      ltac:((split; [reflexivity|]);
            (split; [simpl; rewrite ?H2, ?H1, ?Hen, ?Hg, ?Hpar; reflexivity
                    |exact X])).
Qed.

(** C1 (as the code has it): provided none of the calls the run makes
    outside any [try] block ([enable_account], [active_account],
    [active_accounts], [get_provider], the parent constructor) raises an
    account error, the constructor raises an account error if and only if
    no token is resolved, no account is active under either scheme, and
    both disk loads fail; an account error raised by one of those calls is
    not caught and reaches the caller. *)
Theorem account_error_iff_no_usable_account
    wires provider backend shots kwargs w :
  let result := IBMQDevice_init wires provider backend shots kwargs w in
  (unguarded_calls_made_raise_no_account_error w (trace_of result) ->
   (raised_account_error (outcome_of result) = true
    <-> no_usable_account w kwargs = true)) /\
  (forall ev err,
      In ev (trace_of result) -> is_unguarded ev = true ->
      error_of w ev = Some err -> is_account_error err = true ->
      outcome_of result = Raise err /\
      raised_account_error (outcome_of result) = true).
Proof.
  intros result. subst result. split.
  - intros Hclean. split.
    + intros Hacc.
      destruct (account_error_source _ _ _ _ _ _ Hacc)
        as [Hno|(ev & err & Hin & Hun & Herr & Hae)]; [exact Hno|].
      rewrite (Hclean ev err Hin Hun Herr) in Hae. discriminate.
    + intros Hno. unfold no_usable_account in Hno.
      rewrite IBMQDevice_init_run.
      destruct (is_none (token_of w kwargs)) eqn:Htok; [|discriminate].
      rewrite (account_step_no_token _ _ _ Htok).
      rewrite (account_lookup_no_account w) by exact Hno.
      reflexivity.
  - intros ev err Hin Hun Herr Hae.
    rewrite (unguarded_error_reaches_caller _ _ _ _ _ _ _ _ Hin Hun Herr).
    split; [reflexivity|exact Hae].
Qed.

(** C1 at work.  With nothing in the environment, no keyword and nothing
    cached, the account error is raised; with an account active in a
    session whose [enable_account] would refuse a second account, no call
    made raises and no account error is raised. *)
Lemma account_error_iff_no_usable_account_witness :
  let run := IBMQDevice_init Sample.two_wires default_provider
               default_backend default_shots ∅ in
  let fresh := Sample.mk_world ∅ Sample.fresh_session in
  let busy := Sample.mk_world ∅ Sample.busy_session in
  (raised_account_error (outcome_of (run fresh)) = true
   <-> no_usable_account fresh ∅ = true) /\
  no_usable_account fresh ∅ = true /\
  (raised_account_error (outcome_of (run busy)) = true
   <-> no_usable_account busy ∅ = true) /\
  no_usable_account busy ∅ = false.
Proof.
  intros run fresh busy.
  destruct (account_error_iff_no_usable_account Sample.two_wires
              default_provider default_backend default_shots ∅ fresh)
    as [Hfresh _].
  destruct (account_error_iff_no_usable_account Sample.two_wires
              default_provider default_backend default_shots ∅ busy)
    as [Hbusy _].
  split; [|split; [reflexivity|split; [|reflexivity]]].
  - apply Hfresh. intros ev err Hin Hun Herr. vm_compute in Hin.
    repeat (destruct Hin as [Hin|Hin]); try (destruct Hin; fail);
      subst ev; simpl in *; discriminate.
  - apply Hbusy. intros ev err Hin Hun Herr. vm_compute in Hin.
    repeat (destruct Hin as [Hin|Hin]); try (destruct Hin; fail);
      subst ev; simpl in *; discriminate.
Defined.

(** C1 as the spec words it fails: with a token given, an account error
    raised by [IBMQ.enable_account] (here: an account is already enabled
    in the session) reaches the caller, although a token was resolved. *)
Lemma account_error_despite_token :
  let w := Sample.mk_world ∅ Sample.busy_session in
  let kwargs : gmap string pyval := {[ "ibmqx_token" := PyStr "TOKEN" ]} in
  let result := IBMQDevice_init Sample.two_wires default_provider
                  default_backend default_shots kwargs w in
  token_of w kwargs = PyStr "TOKEN" /\
  raised_account_error (outcome_of result) = true /\
  no_usable_account w kwargs = false /\
  ~ (raised_account_error (outcome_of result) = true
     <-> no_usable_account w kwargs = true).
Proof.
  intros w kwargs result.
  assert (Hr : raised_account_error (outcome_of result) = true)
    by (vm_compute; reflexivity).
  assert (Hn : no_usable_account w kwargs = false)
    by (vm_compute; reflexivity).
  split; [vm_compute; reflexivity|].
  split; [exact Hr|]. split; [exact Hn|].
  intros [H _]. rewrite (H Hr) in Hn. discriminate.
Qed.

(** ** A cached account (lines 96-117) *)

Lemma account_lookup_found w :
  account_found w = true -> outcome_of (account_lookup w) = Ok tt.
Proof.
  unfold account_found. intros H.
  destruct (account_lookup_path w) as
    [e H2|v H2 Hv|e H2 H1|v H2 H1 Hv|v H2 H1 Hv L1|v c m H2 H1 Hv L1
    |v m1 H2 H1 Hv L1 L2|v m1 c m H2 H1 Hv L1 L2|v m1 m2 H2 H1 Hv L1 L2];
    try reflexivity;
    rewrite ?H2, ?H1 in H; simpl in H; rewrite ?Hv, ?L1 in H; simpl in H;
    rewrite ?L2 in H; discriminate.
Qed.

(** C4 (as the code has it): when no token is resolved and the lookup finds
    an account, the lookup raises nothing; if the provider then resolves to
    [p] (the [provider] argument when truthy, else what [get_provider()]
    returns), the parent constructor is called with [p], as the last call,
    and the constructor ends exactly as the parent constructor ends: it
    raises no error when the parent raises none. *)
Theorem cached_account_forwards_provider
    wires provider backend shots kwargs w p :
  is_none (token_of w kwargs) = true ->
  account_found w = true ->
  outcome_of (resolve_provider provider w) = Ok p ->
  let result := IBMQDevice_init wires provider backend shots kwargs w in
  outcome_of (account_lookup w) = Ok tt /\
  List.filter is_parent (trace_of result)
    = [ParentInit wires p backend shots kwargs] /\
  List.last (trace_of result) ActiveAccount
    = ParentInit wires p backend shots kwargs /\
  outcome_of result
    = QiskitDevice_init w wires p backend shots kwargs /\
  (raised (QiskitDevice_init w wires p backend shots kwargs) = false ->
   raised (outcome_of result) = false).
Proof.
  intros Htok Hfound Hp result. subst result.
  pose proof (account_lookup_found w Hfound) as Hl.
  split; [exact Hl|].
  rewrite IBMQDevice_init_run, (account_step_no_token _ _ _ Htok).
  pose proof (account_lookup_events w) as Hev.
  assert (Hnil : List.filter is_parent (trace_of (account_lookup w)) = []).
  { apply (filter_nil_of_Forall is_lookup); [exact Hev|].
    intros [] H; try discriminate; reflexivity. }
  pose proof (filter_provider_events is_parent provider w eq_refl) as Hpn.
  destruct (account_lookup w) as [[[]|e] t1]; simpl in Hl; [|discriminate].
  destruct (resolve_provider provider w) as [[q|e] t2]; simpl in Hp;
    [|discriminate].
  injection Hp as ->. unfold trace_of, outcome_of in *. cbn [fst snd] in *.
  rewrite !List.filter_app, Hnil, Hpn.
  split; [reflexivity|]. split; [|split; [reflexivity|intros H; exact H]].
  rewrite !List.app_assoc. apply List.last_last.
Qed.

(** C4 at work: a v2 account on disk and a provider handed in. *)
Lemma cached_account_forwards_provider_witness :
  let w := Sample.mk_world ∅ Sample.disk_v2_session in
  let mine := PyObj "my-provider" true in
  let result := IBMQDevice_init Sample.two_wires mine default_backend
                  default_shots ∅ w in
  outcome_of (account_lookup w) = Ok tt /\
  List.filter is_parent (trace_of result)
    = [ParentInit Sample.two_wires mine default_backend default_shots ∅] /\
  List.last (trace_of result) ActiveAccount
    = ParentInit Sample.two_wires mine default_backend default_shots ∅ /\
  outcome_of result
    = QiskitDevice_init w Sample.two_wires mine default_backend default_shots ∅ /\
  (raised (QiskitDevice_init w Sample.two_wires mine default_backend
             default_shots ∅) = false ->
   raised (outcome_of result) = false).
Proof.
  intros w mine.
  apply (cached_account_forwards_provider Sample.two_wires mine
           default_backend default_shots ∅ w mine); reflexivity.
Defined.

(** C4 as the spec words it fails: an account is active and no token is
    given, yet the call raises and the parent constructor is never
    reached, because [IBMQ.get_provider()] raises and nothing catches
    it. *)
Lemma cached_account_yet_error_raised :
  let w := Sample.mk_world ∅ Sample.no_provider_session in
  let result := IBMQDevice_init Sample.two_wires default_provider
                  default_backend default_shots ∅ w in
  is_none (token_of w ∅) = true /\
  account_found w = true /\
  raised (outcome_of result) = true /\
  List.filter is_parent (trace_of result) = [] /\
  ~ (is_none (token_of w ∅) = true -> account_found w = true ->
     raised (outcome_of result) = false).
Proof.
  intros w result.
  assert (Hr : raised (outcome_of result) = true) by (vm_compute; reflexivity).
  split; [vm_compute; reflexivity|]. split; [vm_compute; reflexivity|].
  split; [exact Hr|]. split; [vm_compute; reflexivity|].
  intros H. rewrite H in Hr; [discriminate| |]; vm_compute; reflexivity.
Qed.

(** ** The error that reaches the caller (lines 101-110) *)

(** C5 (as the code has it): when nothing is usable, the constructor ends
    with an account error of its own making, with its own fixed message,
    whatever the two errors the SDK raised were (both are caught and
    dropped); each disk load was attempted exactly once and nothing was
    called after the second one. *)
Theorem no_usable_account_raises_own_error
    wires provider backend shots kwargs w :
  no_usable_account w kwargs = true ->
  let result := IBMQDevice_init wires provider backend shots kwargs w in
  result =
    (Raise (IBMQAccountError no_account_message),
     [Getenv "IBMQX_TOKEN"; Getenv "IBMQX_URL";
      ActiveAccount; ActiveAccounts; LoadAccounts; LoadAccount]) /\
  List.filter is_load_v1 (trace_of result) = [LoadAccounts] /\
  List.filter is_load_v2 (trace_of result) = [LoadAccount].
Proof.
  intros H result. unfold no_usable_account in H.
  assert (E : result =
    (Raise (IBMQAccountError no_account_message),
     [Getenv "IBMQX_TOKEN"; Getenv "IBMQX_URL";
      ActiveAccount; ActiveAccounts; LoadAccounts; LoadAccount])).
  { subst result. rewrite IBMQDevice_init_run.
    destruct (is_none (token_of w kwargs)) eqn:Htok; [|discriminate].
    rewrite (account_step_no_token _ _ _ Htok).
    rewrite (account_lookup_no_account w) by exact H.
    reflexivity. }
  rewrite E. repeat split.
Qed.

(** C5 at work. *)
Lemma no_usable_account_raises_own_error_witness :
  let w := Sample.mk_world ∅ Sample.fresh_session in
  let result := IBMQDevice_init Sample.two_wires default_provider
                  default_backend default_shots ∅ w in
  result =
    (Raise (IBMQAccountError no_account_message),
     [Getenv "IBMQX_TOKEN"; Getenv "IBMQX_URL";
      ActiveAccount; ActiveAccounts; LoadAccounts; LoadAccount]) /\
  List.filter is_load_v1 (trace_of result) = [LoadAccounts] /\
  List.filter is_load_v2 (trace_of result) = [LoadAccount].
Proof.
  intros w.
  apply (no_usable_account_raises_own_error Sample.two_wires
           default_provider default_backend default_shots ∅ w).
  reflexivity.
Defined.

(** C5 as the spec words it fails: the error the caller sees is neither of
    the two account errors the SDK raised. *)
Lemma sdk_account_error_not_bubbled_up :
  let w := Sample.mk_world ∅ Sample.fresh_session in
  let result := IBMQDevice_init Sample.two_wires default_provider
                  default_backend default_shots ∅ w in
  no_usable_account w ∅ = true /\
  load_accounts (IBMQ w)
    = Raise (IBMQAccountError "No IBMQ credentials found on disk.") /\
  load_account (IBMQ w)
    = Raise (IBMQAccountError "No Quantum Experience credentials found.") /\
  outcome_of result
    = Raise (IBMQAccountError
               "No active IBM Q account, and no IBM Q token provided.") /\
  outcome_of result <> load_accounts (IBMQ w) /\
  outcome_of result <> load_account (IBMQ w).
Proof.
  intros w result.
  split; [vm_compute; reflexivity|].
  split; [reflexivity|]. split; [reflexivity|].
  split; [vm_compute; reflexivity|].
  split; vm_compute; intros H; discriminate H.
Qed.

(** ** The order of the calls (lines 74-117) *)

Lemma no_account_active_intro w v :
  active_account (IBMQ w) = Ok PyNone ->
  active_accounts (IBMQ w) = Ok v -> truthy v = false ->
  no_account_active w = true.
Proof.
  intros H2 H1 Hv. unfold no_account_active. rewrite H2, H1, Hv. reflexivity.
Qed.

(** C6: the calls of a run are in the order of the three steps (credential
    resolution, account activation or lookup, provider delegation); the
    lookup calls made are an initial part of: active-account check (v2,
    then v1), v1 disk load, v2 disk load; the v1 load is attempted only
    when no account is active, the v2 load only when the v1 load failed;
    and with a token resolved no lookup call is made at all. *)
Theorem constructor_steps_in_sequence wires provider backend shots kwargs w :
  let trace := trace_of (IBMQDevice_init wires provider backend shots kwargs w) in
  StronglySorted (fun a b => step_of a <= step_of b) trace /\
  (exists rest,
      trace = Getenv "IBMQX_TOKEN" :: Getenv "IBMQX_URL" :: rest) /\
  (exists later, lookup_order = (List.filter is_lookup trace ++ later)%list) /\
  (In LoadAccounts trace -> no_account_active w = true) /\
  (In LoadAccount trace ->
     In LoadAccounts trace /\ load_fails (load_accounts (IBMQ w)) = true) /\
  (is_none (token_of w kwargs) = false -> List.filter is_lookup trace = []).
Proof.
  intros trace; subst trace. rewrite IBMQDevice_init_run.
  destruct (is_none (token_of w kwargs)) eqn:Htok.
  - rewrite (account_step_no_token _ _ _ Htok).
    destruct (account_lookup_path w) as
      [e H2|v H2 Hv|e H2 H1|v H2 H1 Hv|v H2 H1 Hv L1|v c m H2 H1 Hv L1
      |v m1 H2 H1 Hv L1 L2|v m1 c m H2 H1 Hv L1 L2|v m1 m2 H2 H1 Hv L1 L2];
      cbn [fst snd trace_of app];
      try (destruct (resolve_provider_path provider w) as [Hp|p Hp Hg|e' Hp Hg];
           cbn [fst snd trace_of app]);
      (split; [sorted_by_step|]);
      (split; [eexists; reflexivity|]);
      (split; [simpl; eexists; reflexivity|]);
      (split; [intros Hin; try (not_in_trace Hin; fail);
               eapply no_account_active_intro; eassumption|]);
      (split; [intros Hin; try (not_in_trace Hin; fail);
               (split; [simpl; tauto
                       |unfold load_fails; rewrite L1; reflexivity])
              |discriminate]).
  - rewrite (account_step_token _ _ _ Htok).
    destruct (enable_account _ _ _) as [[]|e]; cbn [fst snd trace_of app];
      try (destruct (resolve_provider_path provider w) as [Hp|p Hp Hg|e' Hp Hg];
           cbn [fst snd trace_of app]);
      (split; [sorted_by_step|]);
      (split; [eexists; reflexivity|]);
      (split; [simpl; eexists; reflexivity|]);
      (split; [intros Hin; not_in_trace Hin|]);
      (split; [intros Hin; not_in_trace Hin|reflexivity]).
Qed.

(** C6 at work: a v2 account on disk. *)
Lemma constructor_steps_in_sequence_witness :
  let w := Sample.mk_world ∅ Sample.disk_v2_session in
  let trace := trace_of (IBMQDevice_init Sample.two_wires default_provider
                           default_backend default_shots ∅ w) in
  trace = [Getenv "IBMQX_TOKEN"; Getenv "IBMQX_URL"; ActiveAccount;
           ActiveAccounts; LoadAccounts; LoadAccount; GetProvider;
           ParentInit Sample.two_wires (PyObj "default-provider" true)
             default_backend default_shots ∅] /\
  no_account_active w = true /\
  load_fails (load_accounts (IBMQ w)) = true.
Proof.
  intros w trace.
  destruct (constructor_steps_in_sequence Sample.two_wires default_provider
              default_backend default_shots ∅ w)
    as (_ & _ & _ & Hv1 & Hv2 & _).
  split; [reflexivity|]. split.
  - apply Hv1. vm_compute. auto 10.
  - apply Hv2. vm_compute. auto 10.
Defined.

(** ** Provider delegation (lines 115-117) *)

(** A run either never reaches the parent class and raises, or calls it
    exactly once, with the resolved provider, and ends as that call ends. *)
Lemma parent_events_of_run wires provider backend shots kwargs w :
  let result := IBMQDevice_init wires provider backend shots kwargs w in
  (List.filter is_parent (trace_of result) = [] /\
   raised (outcome_of result) = true) \/
  (exists p,
      outcome_of (resolve_provider provider w) = Ok p /\
      List.filter is_parent (trace_of result)
        = [ParentInit wires p backend shots kwargs] /\
      outcome_of result = QiskitDevice_init w wires p backend shots kwargs /\
      exists before,
        trace_of result =
        (before ++ trace_of (resolve_provider provider w)
                ++ [ParentInit wires p backend shots kwargs])%list).
Proof.
  intros result; subst result. rewrite IBMQDevice_init_run.
  assert (Hstep : List.filter is_parent
            (trace_of (account_step (token_of w kwargs) (url_of w kwargs) w))
          = []).
  { unfold account_step. destruct (negb (is_none (token_of w kwargs))).
    - reflexivity.
    - apply (filter_nil_of_Forall is_lookup);
        [apply account_lookup_events|].
      intros [] H; try discriminate; reflexivity. }
  pose proof (filter_provider_events is_parent provider w eq_refl) as Hprov.
  destruct (account_step _ _ w) as [[[]|e] t1];
    unfold trace_of, outcome_of in *; cbn [fst snd] in *.
  - destruct (resolve_provider provider w) as [[p|e] t2]; cbn [fst snd] in *.
    + right. exists p. rewrite !List.filter_app, Hstep, Hprov.
      do 3 (split; [reflexivity|]).
      exists ([Getenv "IBMQX_TOKEN"; Getenv "IBMQX_URL"] ++ t1)%list.
      rewrite <- !List.app_assoc. reflexivity.
    + left. rewrite !List.filter_app, Hstep, Hprov. split; reflexivity.
  - left. rewrite !List.filter_app, Hstep. split; reflexivity.
Qed.

(** C7: on a call that returns, the parent constructor was called exactly
    once, with the caller's [wires], [backend] and [shots], the resolved
    provider, and the caller's keyword dictionary as it came in
    ([ibmqx_token] and [ibmqx_url] included when given). *)
Theorem successful_call_invokes_parent_once
    wires provider backend shots kwargs w :
  outcome_of (IBMQDevice_init wires provider backend shots kwargs w) = Ok tt ->
  exists p,
    outcome_of (resolve_provider provider w) = Ok p /\
    List.filter is_parent
      (trace_of (IBMQDevice_init wires provider backend shots kwargs w))
      = [ParentInit wires p backend shots kwargs] /\
    QiskitDevice_init w wires p backend shots kwargs = Ok tt.
Proof.
  intros Hok.
  destruct (parent_events_of_run wires provider backend shots kwargs w)
    as [[_ Hr]|(p & Hp & Hf & Ho & _)].
  - rewrite Hok in Hr. discriminate.
  - exists p. rewrite <- Ho. auto.
Qed.

(** C7 at work: a token and a URL given as keywords reach the parent
    class along with everything else. *)
Lemma successful_call_invokes_parent_once_witness :
  let w := Sample.mk_world ∅ Sample.fresh_session in
  let kwargs : gmap string pyval :=
    {[ "ibmqx_token" := PyStr "TOKEN"; "ibmqx_url" := PyStr "https://q";
       "verbose" := PyBool true ]} in
  let mine := PyObj "my-provider" true in
  exists p,
    outcome_of (resolve_provider mine w) = Ok p /\
    List.filter is_parent
      (trace_of (IBMQDevice_init Sample.two_wires mine (PyStr "ibmqx4")
                   (PyInt 100) kwargs w))
      = [ParentInit Sample.two_wires p (PyStr "ibmqx4") (PyInt 100) kwargs] /\
    QiskitDevice_init w Sample.two_wires p (PyStr "ibmqx4") (PyInt 100) kwargs
      = Ok tt.
Proof.
  intros w kwargs mine.
  apply (successful_call_invokes_parent_once Sample.two_wires mine
           (PyStr "ibmqx4") (PyInt 100) kwargs w).
  vm_compute. reflexivity.
Defined.

(** C8: the provider the parent constructor receives is the caller's
    [provider] when that is truthy, and otherwise what
    [IBMQ.get_provider()] returned, whatever falsy value was passed. *)
Theorem forwarded_provider_is_given_or_default
    wires provider backend shots kwargs w wires' p backend' shots' kwargs' :
  In (ParentInit wires' p backend' shots' kwargs')
     (trace_of (IBMQDevice_init wires provider backend shots kwargs w)) ->
  (truthy provider = true -> p = provider) /\
  (truthy provider = false ->
     get_provider (IBMQ w) = Ok p /\
     In GetProvider
        (trace_of (IBMQDevice_init wires provider backend shots kwargs w))).
Proof.
  intros Hin.
  assert (Hin' : In (ParentInit wires' p backend' shots' kwargs')
            (List.filter is_parent
               (trace_of (IBMQDevice_init wires provider backend shots kwargs w))))
    by (apply List.filter_In; split; [exact Hin|reflexivity]).
  destruct (parent_events_of_run wires provider backend shots kwargs w)
    as [[Hnil _]|(q & Hq & Hf & _ & before & Htr)].
  - rewrite Hnil in Hin'. destruct Hin'.
  - rewrite Hf in Hin'. destruct Hin' as [E|[]].
    injection E as _ -> _ _ _. rewrite Htr. clear Htr Hf Hin.
    destruct (resolve_provider_path provider w) as [Hp|p' Hp Hg|e Hp Hg];
      simpl in Hq.
    + injection Hq as ->. split; [reflexivity|congruence].
    + injection Hq as ->. split; [congruence|]. intros _. split; [exact Hg|].
      apply List.in_or_app. right. simpl. auto.
    + discriminate.
Qed.

(** C8 at work: a provider object that is falsy, and not [None], is
    replaced by the default provider. *)
Lemma forwarded_provider_is_given_or_default_witness :
  let w := Sample.mk_world ∅ Sample.disk_v2_session in
  let falsy := PyObj "empty-provider" false in
  let trace := trace_of (IBMQDevice_init Sample.two_wires falsy
                           default_backend default_shots ∅ w) in
  is_none falsy = false /\
  In (ParentInit Sample.two_wires (PyObj "default-provider" true)
        default_backend default_shots ∅) trace /\
  (truthy falsy = true -> PyObj "default-provider" true = falsy) /\
  (truthy falsy = false ->
     get_provider (IBMQ w) = Ok (PyObj "default-provider" true) /\
     In GetProvider trace).
Proof.
  intros w falsy trace.
  assert (Hin : In (ParentInit Sample.two_wires (PyObj "default-provider" true)
                      default_backend default_shots ∅) trace)
    by (vm_compute; auto 10).
  split; [reflexivity|]. split; [exact Hin|].
  exact (forwarded_provider_is_given_or_default Sample.two_wires falsy
           default_backend default_shots ∅ w _ _ _ _ _ Hin).
Defined.

(** ** A URL without a token (lines 75-110) *)

(** Without a token the account step is the lookup, whatever the URL. *)
Lemma account_step_ignores_url token url url' w :
  is_none token = true ->
  account_step token url w = account_step token url' w.
Proof.
  intros H. rewrite !(account_step_no_token _ _ _ H). reflexivity.
Qed.

Lemma run_hands_over_no_url wires provider backend shots kwargs w :
  is_none (token_of w kwargs) = true ->
  Forall (fun ev => url_passed ev = None)
         (trace_of (IBMQDevice_init wires provider backend shots kwargs w)).
Proof.
  intros Htok. rewrite IBMQDevice_init_run, (account_step_no_token _ _ _ Htok).
  assert (Hl : Forall (fun ev => url_passed ev = None)
                      (trace_of (account_lookup w))).
  { eapply Forall_impl; [apply account_lookup_events|].
    intros [] H; try discriminate; reflexivity. }
  assert (Hp : Forall (fun ev => url_passed ev = None)
                      (trace_of (resolve_provider provider w))).
  { eapply Forall_impl; [apply resolve_provider_events|].
    intros [] H; try discriminate; reflexivity. }
  destruct (account_lookup w) as [[[]|e] t1];
    unfold trace_of in *; cbn [fst snd] in *.
  - destruct (resolve_provider provider w) as [[p|e] t2]; cbn [fst snd] in *;
      forall_pieces.
  - forall_pieces.
Qed.

(** C10: when a URL is resolved and no token is, the URL goes nowhere: no
    call of the run receives it, [enable_account] is not called, the
    account step is the plain lookup and would be the same for any other
    URL, and the whole run is the same for any other value of
    [IBMQX_URL], set or unset. *)
Theorem url_without_token_is_unused wires provider backend shots kwargs w :
  is_none (token_of w kwargs) = true ->
  is_none (url_of w kwargs) = false ->
  let run := IBMQDevice_init wires provider backend shots kwargs in
  Forall (fun ev => url_passed ev = None) (trace_of (run w)) /\
  List.filter is_enable (trace_of (run w)) = [] /\
  account_step (token_of w kwargs) (url_of w kwargs) w = account_lookup w /\
  (forall url',
      account_step (token_of w kwargs) url' w =
      account_step (token_of w kwargs) (url_of w kwargs) w) /\
  (forall u, run (with_environ (<["IBMQX_URL" := u]> (environ w)) w) = run w) /\
  run (with_environ (delete "IBMQX_URL" (environ w)) w) = run w.
Proof.
  intros Htok Hurl run.
  assert (Henv : forall env,
             env !! "IBMQX_TOKEN" = environ w !! "IBMQX_TOKEN" ->
             run (with_environ env w) = run w).
  { intros env He. subst run. rewrite !IBMQDevice_init_run.
    assert (Ht : token_of (with_environ env w) kwargs = token_of w kwargs).
    { unfold token_of, getenv_value, with_environ; simpl. rewrite He.
      reflexivity. }
    rewrite Ht, account_step_environ, resolve_provider_environ.
    rewrite (account_step_ignores_url _ _ (url_of w kwargs) _ Htok).
    reflexivity. }
  split; [apply run_hands_over_no_url; exact Htok|].
  split.
  { subst run. rewrite filter_step_events by (intros; reflexivity).
    rewrite account_step_enable_events, Htok. reflexivity. }
  split; [apply account_step_no_token; exact Htok|].
  split; [intros url'; apply account_step_ignores_url; exact Htok|].
  split.
  - intros u. apply Henv. rewrite lookup_insert_ne by discriminate.
    reflexivity.
  - apply Henv. rewrite lookup_delete_ne by discriminate. reflexivity.
Qed.

(** C10 at work: a URL in the environment and another as a keyword, no
    token anywhere, a v2 account on disk. *)
Lemma url_without_token_is_unused_witness :
  let w := Sample.mk_world {[ "IBMQX_URL" := "https://env" ]}
             Sample.disk_v2_session in
  let kwargs : gmap string pyval := {[ "ibmqx_url" := PyStr "https://kw" ]} in
  let run := IBMQDevice_init Sample.two_wires default_provider
               default_backend default_shots kwargs in
  url_of w kwargs = PyStr "https://env" /\
  Forall (fun ev => url_passed ev = None) (trace_of (run w)) /\
  List.filter is_enable (trace_of (run w)) = [] /\
  account_step (token_of w kwargs) (url_of w kwargs) w = account_lookup w /\
  (forall url',
      account_step (token_of w kwargs) url' w =
      account_step (token_of w kwargs) (url_of w kwargs) w) /\
  (forall u, run (with_environ (<["IBMQX_URL" := u]> (environ w)) w) = run w) /\
  run (with_environ (delete "IBMQX_URL" (environ w)) w) = run w.
Proof.
  intros w kwargs run. split; [reflexivity|].
  apply (url_without_token_is_unused Sample.two_wires default_provider
           default_backend default_shots kwargs w); reflexivity.
Defined.

(** ** Further properties of the constructor (lines 73-117) *)

Ltac distinct_calls :=
  repeat match goal with
         | |- List.NoDup _ => constructor
         | |- ~ In _ _ => let H := fresh in intros H; not_in_trace H
         end.

(** X1: of the calls to [os.getenv], to [qiskit.IBMQ] and to the parent
    constructor (the calls the log records; the two calls into [warnings]
    of lines 85-86 are not among them), none is ever made twice, and a run
    makes between three and eight: the two environment reads, at least
    one account call, at most four lookup calls, one provider call and
    the parent constructor. *)
Theorem no_call_repeated wires provider backend shots kwargs w :
  let trace := trace_of (IBMQDevice_init wires provider backend shots kwargs w) in
  List.NoDup trace /\ 3 <= length trace <= 8.
Proof.
  intros trace; subst trace.
  run_paths provider kwargs w;
    (split; [distinct_calls | simpl; lia]).
Qed.

Lemma no_usable_account_intro w kwargs v m1 m2 :
  is_none (token_of w kwargs) = true ->
  active_account (IBMQ w) = Ok PyNone ->
  active_accounts (IBMQ w) = Ok v -> truthy v = false ->
  load_accounts (IBMQ w) = Raise (IBMQAccountError m1) ->
  load_account (IBMQ w) = Raise (IBMQAccountError m2) ->
  no_usable_account w kwargs = true.
Proof.
  intros Htok H2 H1 Hv L1 L2. unfold no_usable_account, load_fails.
  rewrite Htok, (no_account_active_intro w v H2 H1 Hv), L1, L2. reflexivity.
Qed.

(** X2: an error that reaches the caller is either the constructor's own
    account error, raised when nothing is usable, or exactly the error
    that the last call of the run ended with: the constructor alters no
    error on its way up and makes no call after one that it lets
    through. *)
Theorem raised_error_is_own_or_last_call
    wires provider backend shots kwargs w err :
  outcome_of (IBMQDevice_init wires provider backend shots kwargs w)
    = Raise err ->
  (err = IBMQAccountError no_account_message /\
   no_usable_account w kwargs = true) \/
  (exists ev,
      last (trace_of (IBMQDevice_init wires provider backend shots kwargs w))
        = Some ev /\
      error_of w ev = Some err).
Proof.
  run_paths provider kwargs w; intros Hr;
    try discriminate Hr;
    try (injection Hr as <-);
    try (left; split; [reflexivity|];
         eapply no_usable_account_intro; eassumption);
    right; eexists; (split; [reflexivity|]); simpl;
    rewrite ?H2, ?H1, ?L1, ?L2, ?Hen, ?Hg, ?Hr; reflexivity.
Qed.

(** X2 at work: the parent constructor refuses the backend. *)
Lemma raised_error_is_own_or_last_call_witness :
  let w := Sample2.mk_world ∅ Sample.disk_v2_session in
  let result := IBMQDevice_init Sample.two_wires default_provider
                  (PyStr "ibmqx4") default_shots ∅ w in
  let e := OtherError "ValueError" "Could not find backend" in
  outcome_of result = Raise e /\
  ((e = IBMQAccountError no_account_message /\ no_usable_account w ∅ = true) \/
   (exists ev, last (trace_of result) = Some ev /\ error_of w ev = Some e)).
Proof.
  intros w result e.
  assert (H : outcome_of result = Raise e) by reflexivity.
  split; [exact H|].
  exact (raised_error_is_own_or_last_call Sample.two_wires default_provider
           (PyStr "ibmqx4") default_shots ∅ w e H).
Defined.

Ltac at_index i n :=
  lazymatch n with
  | O => simpl; intros Hev; discriminate Hev
  | S ?k =>
      destruct i as [|i]; simpl;
      [ intros Hev Hlen Herr; try (exfalso; lia);
        try (injection Hev as <-; simpl in Herr)
      | first [ intros Hev; discriminate Hev | at_index i k ] ]
  end.

(** X3: the only errors the constructor catches are account errors of
    the v1 disk load: every call of a run but the last one returned
    normally, unless it is [load_accounts] and raised an account error. *)
Theorem only_account_error_of_load_is_caught
    wires provider backend shots kwargs w i ev err :
  trace_of (IBMQDevice_init wires provider backend shots kwargs w) !! i
    = Some ev ->
  S i < length (trace_of (IBMQDevice_init wires provider backend shots kwargs w)) ->
  error_of w ev = Some err ->
  ev = LoadAccounts /\ is_account_error err = true.
Proof.
  run_paths provider kwargs w; at_index i 8;
    rewrite ?H2, ?H1, ?L1, ?L2, ?Hen, ?Hg in Herr;
    try discriminate Herr;
    injection Herr as <-; split; reflexivity.
Qed.

(** X3 at work: the failed v1 load of a run that goes on to load a v2
    account. *)
Lemma only_account_error_of_load_is_caught_witness :
  let w := Sample.mk_world ∅ Sample.disk_v2_session in
  let trace := trace_of (IBMQDevice_init Sample.two_wires default_provider
                           default_backend default_shots ∅ w) in
  trace !! 4 = Some LoadAccounts /\
  error_of w LoadAccounts
    = Some (IBMQAccountError "No IBMQ credentials found on disk.") /\
  LoadAccounts = LoadAccounts /\
  is_account_error (IBMQAccountError "No IBMQ credentials found on disk.")
    = true.
Proof.
  intros w trace.
  split; [reflexivity|]. split; [reflexivity|].
  apply (only_account_error_of_load_is_caught Sample.two_wires
           default_provider default_backend default_shots ∅ w 4
           LoadAccounts
           (IBMQAccountError "No IBMQ credentials found on disk."));
    [reflexivity|vm_compute; lia|reflexivity].
Defined.

(** ** Errors that pass through (lines 81, 96-110) *)

(** X4: with a token, an error of [enable_account], of whatever class, is
    the error of the call; the run stops there: no lookup, no provider, no
    parent constructor. *)
Theorem enable_account_error_ends_run
    wires provider backend shots kwargs w err :
  is_none (token_of w kwargs) = false ->
  enable_account (IBMQ w) (token_of w kwargs)
    (ibmq_kwargs_of (url_of w kwargs)) = Raise err ->
  IBMQDevice_init wires provider backend shots kwargs w =
  (Raise err,
   [Getenv "IBMQX_TOKEN"; Getenv "IBMQX_URL";
    EnableAccount (token_of w kwargs) (ibmq_kwargs_of (url_of w kwargs))]).
Proof.
  intros Htok Hen.
  rewrite IBMQDevice_init_run, (account_step_token _ _ _ Htok), Hen.
  reflexivity.
Qed.

(** X4 at work: the service rejects the token. *)
Lemma enable_account_error_ends_run_witness :
  let w := Sample.mk_world ∅ Sample2.rejecting_session in
  let kwargs : gmap string pyval := {[ "ibmqx_token" := PyStr "TOKEN" ]} in
  IBMQDevice_init Sample.two_wires default_provider default_backend
    default_shots kwargs w =
  (Raise (OtherError "IBMQApiError" "Login failed."),
   [Getenv "IBMQX_TOKEN"; Getenv "IBMQX_URL";
    EnableAccount (token_of w kwargs) (ibmq_kwargs_of (url_of w kwargs))]).
Proof.
  intros w kwargs.
  apply (enable_account_error_ends_run Sample.two_wires default_provider
           default_backend default_shots kwargs w); reflexivity.
Defined.

(** X5: an error of [load_accounts] that is no account error is not
    caught: it is the error of the call, and the v2 disk load is never
    attempted, whatever it would have answered. *)
Theorem other_error_of_load_accounts_passes
    wires provider backend shots kwargs w cls msg :
  is_none (token_of w kwargs) = true ->
  no_account_active w = true ->
  load_accounts (IBMQ w) = Raise (OtherError cls msg) ->
  IBMQDevice_init wires provider backend shots kwargs w =
  (Raise (OtherError cls msg),
   [Getenv "IBMQX_TOKEN"; Getenv "IBMQX_URL";
    ActiveAccount; ActiveAccounts; LoadAccounts]).
Proof.
  intros Htok' Hna Hl. revert Hna. unfold no_account_active.
  run_paths provider kwargs w; try discriminate;
    rewrite ?H2, ?H1; simpl; rewrite ?Hv; simpl; try discriminate;
    intros _; congruence.
Qed.

(** X5 at work: the v1 load breaks although a v2 account is on disk. *)
Lemma other_error_of_load_accounts_passes_witness :
  let w := Sample.mk_world ∅ Sample2.broken_v1_session in
  load_account (IBMQ w) = Ok tt /\
  IBMQDevice_init Sample.two_wires default_provider default_backend
    default_shots ∅ w =
  (Raise (OtherError "AttributeError" "load_accounts"),
   [Getenv "IBMQX_TOKEN"; Getenv "IBMQX_URL";
    ActiveAccount; ActiveAccounts; LoadAccounts]).
Proof.
  intros w. split; [reflexivity|].
  apply (other_error_of_load_accounts_passes Sample.two_wires
           default_provider default_backend default_shots ∅ w);
    reflexivity.
Defined.

(** X6: after a failed v1 load, an error of [load_account] that is no
    account error is not replaced by the constructor's own message: it is
    the error of the call. *)
Theorem other_error_of_load_account_passes
    wires provider backend shots kwargs w cls msg :
  is_none (token_of w kwargs) = true ->
  no_account_active w = true ->
  load_fails (load_accounts (IBMQ w)) = true ->
  load_account (IBMQ w) = Raise (OtherError cls msg) ->
  IBMQDevice_init wires provider backend shots kwargs w =
  (Raise (OtherError cls msg),
   [Getenv "IBMQX_TOKEN"; Getenv "IBMQX_URL";
    ActiveAccount; ActiveAccounts; LoadAccounts; LoadAccount]).
Proof.
  intros Htok' Hna Hf Hl. revert Hna Hf. unfold no_account_active, load_fails.
  run_paths provider kwargs w; try discriminate;
    rewrite ?H2, ?H1, ?L1; simpl; rewrite ?Hv; simpl; try discriminate;
    intros _ _; congruence.
Qed.

(** X6 at work. *)
Lemma other_error_of_load_account_passes_witness :
  let w := Sample.mk_world ∅ Sample2.broken_v2_session in
  IBMQDevice_init Sample.two_wires default_provider default_backend
    default_shots ∅ w =
  (Raise (OtherError "OSError" "qiskitrc is not readable"),
   [Getenv "IBMQX_TOKEN"; Getenv "IBMQX_URL";
    ActiveAccount; ActiveAccounts; LoadAccounts; LoadAccount]).
Proof.
  intros w.
  apply (other_error_of_load_account_passes Sample.two_wires
           default_provider default_backend default_shots ∅ w);
    reflexivity.
Defined.

(** ** Calls that are skipped (lines 96, 115) *)

(** The lookup calls of a run are those of its account step. *)
Lemma lookup_events_of_run wires provider backend shots kwargs w :
  is_none (token_of w kwargs) = true ->
  List.filter is_lookup
    (trace_of (IBMQDevice_init wires provider backend shots kwargs w))
  = trace_of (account_lookup w).
Proof.
  intros Htok. rewrite filter_step_events by (intros; reflexivity).
  rewrite (account_step_no_token _ _ _ Htok).
  pose proof (account_lookup_events w) as H.
  induction H as [|ev l Hev _ IH]; [reflexivity|].
  simpl. rewrite Hev, IH. reflexivity.
Qed.

(** X7: an account that is already active ends the lookup at once.  With
    a v2 account active, [active_account] is the only lookup call, and
    [active_accounts] is not even asked; with only a v1 account active the
    two probes are the only lookup calls.  Either way nothing is loaded
    from disk, and the answers the skipped calls would have given do not
    matter. *)
Theorem active_account_ends_lookup wires provider backend shots kwargs w :
  is_none (token_of w kwargs) = true ->
  let lookups :=
    List.filter is_lookup
      (trace_of (IBMQDevice_init wires provider backend shots kwargs w)) in
  (forall v, active_account (IBMQ w) = Ok v -> is_none v = false ->
             lookups = [ActiveAccount]) /\
  (forall v, active_account (IBMQ w) = Ok PyNone ->
             active_accounts (IBMQ w) = Ok v -> truthy v = true ->
             lookups = [ActiveAccount; ActiveAccounts]).
Proof.
  intros Htok lookups. subst lookups.
  rewrite (lookup_events_of_run _ _ _ _ _ _ Htok).
  split.
  - intros v0 Ha Hn.
    destruct (account_lookup_path w); try reflexivity; try congruence;
      rewrite Ha in *; simplify_eq; discriminate.
  - intros v0 Ha Hb Ht.
    destruct (account_lookup_path w); try reflexivity; try congruence;
      rewrite ?Ha, ?Hb in *; simplify_eq; try discriminate; congruence.
Qed.

(** X7 at work: the lookup calls that are skipped would all have raised. *)
Lemma active_account_ends_lookup_witness :
  let run w := IBMQDevice_init Sample.two_wires default_provider
                 default_backend default_shots ∅ w in
  let w2 := Sample.mk_world ∅ Sample2.active_v2_session in
  let w1 := Sample.mk_world ∅ Sample2.active_v1_session in
  List.filter is_lookup (trace_of (run w2)) = [ActiveAccount] /\
  List.filter is_lookup (trace_of (run w1)) = [ActiveAccount; ActiveAccounts] /\
  outcome_of (run w2) = Ok tt /\ outcome_of (run w1) = Ok tt.
Proof.
  intros run w2 w1.
  assert (T2 : is_none (token_of w2 ∅) = true) by reflexivity.
  assert (T1 : is_none (token_of w1 ∅) = true) by reflexivity.
  destruct (active_account_ends_lookup Sample.two_wires default_provider
              default_backend default_shots ∅ w2 T2) as [Hv2 _].
  destruct (active_account_ends_lookup Sample.two_wires default_provider
              default_backend default_shots ∅ w1 T1) as [_ Hv1].
  split; [apply (Hv2 (PyObj "account" true)); reflexivity|].
  split; [apply (Hv1 (PyList [PyObj "v1-credentials" true])); reflexivity|].
  split; reflexivity.
Defined.

(** X8: [IBMQ.get_provider()] is called exactly when the [provider]
    argument is falsy and the account step returned: a truthy provider is
    never looked up, and no provider is looked up after a failed account
    step. *)
Theorem get_provider_called_iff wires provider backend shots kwargs w :
  In GetProvider
     (trace_of (IBMQDevice_init wires provider backend shots kwargs w))
  <-> truthy provider = false /\
      outcome_of (account_step (token_of w kwargs) (url_of w kwargs) w) = Ok tt.
Proof.
  run_paths provider kwargs w;
    (split;
     [ intros Hin; try (not_in_trace Hin; fail);
       (split; [assumption|reflexivity])
     | intros [Hf Ho]; try discriminate Ho; try congruence; simpl; auto 10 ]).
Qed.

(** ** The parent constructor (line 117) *)

(** X9: whenever the parent constructor is called, also on a run that
    ends in an error, it gets the caller's [wires], [backend], [shots]
    and keyword dictionary as they came in, it is the last call of the
    run, and the run ends as that call ends: what the parent raises
    reaches the caller as it is. *)
Theorem parent_call_is_last_and_decides
    wires provider backend shots kwargs w wires' p backend' shots' kwargs' :
  In (ParentInit wires' p backend' shots' kwargs')
     (trace_of (IBMQDevice_init wires provider backend shots kwargs w)) ->
  wires' = wires /\ backend' = backend /\ shots' = shots /\ kwargs' = kwargs /\
  last (trace_of (IBMQDevice_init wires provider backend shots kwargs w))
    = Some (ParentInit wires p backend shots kwargs) /\
  outcome_of (IBMQDevice_init wires provider backend shots kwargs w)
    = QiskitDevice_init w wires p backend shots kwargs.
Proof.
  intros Hin.
  assert (Hin' : In (ParentInit wires' p backend' shots' kwargs')
            (List.filter is_parent
               (trace_of (IBMQDevice_init wires provider backend shots kwargs w))))
    by (apply List.filter_In; split; [exact Hin|reflexivity]).
  destruct (parent_events_of_run wires provider backend shots kwargs w)
    as [[Hnil _]|(q & _ & Hf & Ho & before & Htr)].
  - rewrite Hnil in Hin'. destruct Hin'.
  - rewrite Hf in Hin'. destruct Hin' as [E|[]].
    injection E as -> -> -> -> ->.
    repeat (split; [reflexivity|]). split; [|exact Ho].
    rewrite Htr, !app_assoc. apply last_snoc.
Qed.

(** X9 at work: the parent constructor refuses the backend it is given. *)
Lemma parent_call_is_last_and_decides_witness :
  let w := Sample2.mk_world ∅ Sample.disk_v2_session in
  let mine := PyObj "my-provider" true in
  let kwargs : gmap string pyval := {[ "verbose" := PyBool true ]} in
  let result := IBMQDevice_init Sample.two_wires mine (PyStr "ibmqx4")
                  (PyInt 10) kwargs w in
  last (trace_of result)
    = Some (ParentInit Sample.two_wires mine (PyStr "ibmqx4") (PyInt 10) kwargs) /\
  outcome_of result
    = Raise (OtherError "ValueError" "Could not find backend").
Proof.
  intros w mine kwargs result.
  assert (Hin : In (ParentInit Sample.two_wires mine (PyStr "ibmqx4")
                      (PyInt 10) kwargs) (trace_of result))
    by (vm_compute; auto 10).
  destruct (parent_call_is_last_and_decides Sample.two_wires mine
              (PyStr "ibmqx4") (PyInt 10) kwargs w _ _ _ _ _ Hin)
    as (_ & _ & _ & _ & Hlast & Hout).
  split; [exact Hlast|]. unfold result. rewrite Hout. reflexivity.
Defined.

(** ** What the credentials depend on (lines 74-81) *)

Lemma token_of_environ env w kwargs :
  env !! "IBMQX_TOKEN" = environ w !! "IBMQX_TOKEN" ->
  token_of (with_environ env w) kwargs = token_of w kwargs.
Proof.
  intros H. unfold token_of, getenv_value, with_environ; simpl.
  rewrite H. reflexivity.
Qed.

Lemma url_of_environ env w kwargs :
  env !! "IBMQX_URL" = environ w !! "IBMQX_URL" ->
  url_of (with_environ env w) kwargs = url_of w kwargs.
Proof.
  intros H. unfold url_of, getenv_value, with_environ; simpl.
  rewrite H. reflexivity.
Qed.

(** X10: of itself the constructor reads the environment at two names
    only, [IBMQX_TOKEN] and [IBMQX_URL]: in two worlds whose SDK and
    parent constructor answer alike (the SDK may read the environment on
    its own account; that is part of its answers) and whose environments
    agree on these two names, the constructor makes the same calls and
    ends the same way. *)
Theorem environment_matters_at_two_names
    wires provider backend shots kwargs w w' :
  IBMQ w' = IBMQ w ->
  QiskitDevice_init w' = QiskitDevice_init w ->
  environ w' !! "IBMQX_TOKEN" = environ w !! "IBMQX_TOKEN" ->
  environ w' !! "IBMQX_URL" = environ w !! "IBMQX_URL" ->
  IBMQDevice_init wires provider backend shots kwargs w'
    = IBMQDevice_init wires provider backend shots kwargs w /\
  (forall name,
      In (Getenv name)
         (trace_of (IBMQDevice_init wires provider backend shots kwargs w)) ->
      name = "IBMQX_TOKEN" \/ name = "IBMQX_URL").
Proof.
  intros Hsdk Hparent Ht Hu. split.
  - destruct w' as [env' sdk' parent']. simpl in Hsdk, Hparent, Ht, Hu.
    subst sdk' parent'.
    change {| environ := env'; IBMQ := IBMQ w;
              QiskitDevice_init := QiskitDevice_init w |}
      with (with_environ env' w).
    apply IBMQDevice_init_environ.
    + apply token_of_environ; exact Ht.
    + apply url_of_environ; exact Hu.
  - intros name.
    run_paths provider kwargs w; intros Hin; simpl in Hin;
      repeat (destruct Hin as [Hin|Hin]);
      try discriminate Hin; try (destruct Hin; fail);
      injection Hin as <-; auto.
Qed.

(** X10 at work: more variables in the environment, the same answers,
    the same run. *)
Lemma environment_matters_at_two_names_witness :
  let w := Sample.mk_world {[ "IBMQX_TOKEN" := "ENVTOKEN" ]} Sample.fresh_session in
  let w' := Sample.mk_world
              {[ "IBMQX_TOKEN" := "ENVTOKEN"; "HOME" := "/root"; "IBMQX" := "x" ]}
              Sample.fresh_session in
  let run := IBMQDevice_init Sample.two_wires default_provider
               default_backend default_shots ∅ in
  run w' = run w.
Proof.
  intros w w' run.
  apply (environment_matters_at_two_names Sample.two_wires default_provider
           default_backend default_shots ∅ w w'); reflexivity.
Defined.

(** X11: a non-empty [IBMQX_TOKEN] is the token of the run whatever the
    keywords say: [enable_account] is called once, with the environment's
    value, and no lookup call is made; and then a non-empty [IBMQX_URL]
    is the [url] it is called with, whatever [ibmqx_url] holds. *)
Theorem nonempty_environment_credentials_are_used
    wires provider backend shots kwargs w token :
  environ w !! "IBMQX_TOKEN" = Some token -> token <> "" ->
  let trace := trace_of (IBMQDevice_init wires provider backend shots kwargs w) in
  List.filter is_lookup trace = [] /\
  List.filter is_enable trace
    = [EnableAccount (PyStr token) (ibmq_kwargs_of (url_of w kwargs))] /\
  (forall url,
      environ w !! "IBMQX_URL" = Some url -> url <> "" ->
      List.filter is_enable trace
        = [EnableAccount (PyStr token) (Some (PyStr url))]).
Proof.
  intros He Hne trace; subst trace.
  pose proof (token_of_env w kwargs token He Hne) as Ht.
  rewrite !filter_step_events by (intros; reflexivity).
  rewrite account_step_enable_events, Ht.
  rewrite (account_step_token _ _ _ (eq_refl : is_none (PyStr token) = false)).
  split; [reflexivity|]. split; [reflexivity|].
  intros url Hu Hun. unfold url_of, getenv_value, py_or. rewrite Hu.
  destruct url; [contradiction|reflexivity].
Qed.

(** X11 at work: both credentials in the environment and as keywords. *)
Lemma nonempty_environment_credentials_are_used_witness :
  let w := Sample.mk_world
             {[ "IBMQX_TOKEN" := "ENVTOKEN"; "IBMQX_URL" := "https://env" ]}
             Sample.fresh_session in
  let kwargs : gmap string pyval :=
    {[ "ibmqx_token" := PyStr "KWTOKEN"; "ibmqx_url" := PyStr "https://kw" ]} in
  let trace := trace_of (IBMQDevice_init Sample.two_wires default_provider
                           default_backend default_shots kwargs w) in
  List.filter is_lookup trace = [] /\
  List.filter is_enable trace
    = [EnableAccount (PyStr "ENVTOKEN") (Some (PyStr "https://env"))].
Proof.
  intros w kwargs trace.
  assert (He : environ w !! "IBMQX_TOKEN" = Some "ENVTOKEN") by reflexivity.
  assert (Hn : "ENVTOKEN" <> "") by discriminate.
  destruct (nonempty_environment_credentials_are_used Sample.two_wires
              default_provider default_backend default_shots kwargs w
              "ENVTOKEN" He Hn) as (Hl & _ & Hu).
  split; [exact Hl|]. apply Hu; [reflexivity|discriminate].
Defined.

(** X12: with [IBMQX_TOKEN] unset or empty, whether the keyword counts as
    a token is decided by [is not None], not by truth: any [ibmqx_token]
    value other than [None], a falsy one included, is handed to
    [enable_account] as it is and no lookup is made; a keyword that is
    absent or explicitly [None] leads to the lookup and to no
    activation. *)
Theorem keyword_token_counts_unless_none
    wires provider backend shots kwargs w :
  truthy (getenv_value w "IBMQX_TOKEN") = false ->
  let trace := trace_of (IBMQDevice_init wires provider backend shots kwargs w) in
  (forall v,
      kwargs !! "ibmqx_token" = Some v -> is_none v = false ->
      List.filter is_enable trace
        = [EnableAccount v (ibmq_kwargs_of (url_of w kwargs))] /\
      List.filter is_lookup trace = []) /\
  (kwargs !! "ibmqx_token" = None \/ kwargs !! "ibmqx_token" = Some PyNone ->
      List.filter is_enable trace = [] /\
      List.filter is_lookup trace = trace_of (account_lookup w)).
Proof.
  intros He trace; subst trace.
  pose proof (token_of_keyword w kwargs He) as Ht.
  split.
  - intros v0 Hk Hv0.
    assert (Ht' : token_of w kwargs = v0)
      by (rewrite Ht; unfold dict_get; rewrite Hk; reflexivity).
    rewrite !filter_step_events by (intros; reflexivity).
    rewrite account_step_enable_events, Ht', Hv0.
    rewrite (account_step_token _ _ _ Hv0). split; reflexivity.
  - intros Hk.
    assert (Ht' : is_none (token_of w kwargs) = true)
      by (rewrite Ht; unfold dict_get; destruct Hk as [-> | ->]; reflexivity).
    split; [|apply lookup_events_of_run; exact Ht'].
    rewrite filter_step_events by (intros; reflexivity).
    rewrite account_step_enable_events, Ht'. reflexivity.
Qed.

(** X12 at work: the keyword is the integer zero. *)
Lemma keyword_token_counts_unless_none_witness :
  let w := Sample.mk_world ∅ Sample.fresh_session in
  let kwargs : gmap string pyval := {[ "ibmqx_token" := PyInt 0 ]} in
  let trace := trace_of (IBMQDevice_init Sample.two_wires default_provider
                           default_backend default_shots kwargs w) in
  truthy (PyInt 0) = false /\
  List.filter is_enable trace = [EnableAccount (PyInt 0) None] /\
  List.filter is_lookup trace = [].
Proof.
  intros w kwargs trace.
  assert (He : truthy (getenv_value w "IBMQX_TOKEN") = false) by reflexivity.
  destruct (keyword_token_counts_unless_none Sample.two_wires
              default_provider default_backend default_shots kwargs w He)
    as [Hset _].
  split; [reflexivity|].
  apply (Hset (PyInt 0)); reflexivity.
Defined.

(** ** What the account step depends on, and what follows it *)

(** X13: the calls made before the parent constructor do not depend on
    [wires], [backend], [shots] or on any keyword other than
    [ibmqx_token] and [ibmqx_url]: two calls in the same world, with the
    same provider, whose keywords agree on these two make the same calls
    up to the parent constructor and hand it the same provider. *)
Theorem calls_before_parent_ignore_device_arguments
    wires wires' provider backend backend' shots shots' kwargs kwargs' w :
  dict_get kwargs' "ibmqx_token" PyNone = dict_get kwargs "ibmqx_token" PyNone ->
  dict_get kwargs' "ibmqx_url" PyNone = dict_get kwargs "ibmqx_url" PyNone ->
  let trace := trace_of (IBMQDevice_init wires provider backend shots kwargs w) in
  let trace' :=
    trace_of (IBMQDevice_init wires' provider backend' shots' kwargs' w) in
  own_calls trace' = own_calls trace /\
  (forall q,
      In (ParentInit wires' q backend' shots' kwargs') trace' <->
      In (ParentInit wires q backend shots kwargs) trace).
Proof.
  intros Ht Hu trace trace'; subst trace trace'.
  assert (Et : token_of w kwargs' = token_of w kwargs)
    by (unfold token_of; rewrite Ht; reflexivity).
  assert (Eu : url_of w kwargs' = url_of w kwargs)
    by (unfold url_of; rewrite Hu; reflexivity).
  rewrite !IBMQDevice_init_run, Et, Eu. clear Ht Hu Et Eu.
  run_paths provider kwargs w;
    (split; [reflexivity|]); intros q;
    (split; intros Hin; simpl in Hin |- *;
     repeat (destruct Hin as [Hin|Hin]);
     try discriminate Hin; try (destruct Hin; fail);
     simplify_eq; auto 10).
Qed.

(** X13 at work: another device on the same account. *)
Lemma calls_before_parent_ignore_device_arguments_witness :
  let w := Sample.mk_world ∅ Sample.disk_v2_session in
  let trace := trace_of (IBMQDevice_init Sample.two_wires default_provider
                           default_backend default_shots ∅ w) in
  let trace' := trace_of (IBMQDevice_init (PyInt 5) default_provider
                            (PyStr "ibmqx4") (PyInt 10)
                            {[ "verbose" := PyBool true ]} w) in
  own_calls trace' = own_calls trace /\
  (forall q,
      In (ParentInit (PyInt 5) q (PyStr "ibmqx4") (PyInt 10)
            {[ "verbose" := PyBool true ]}) trace' <->
      In (ParentInit Sample.two_wires q default_backend default_shots ∅) trace).
Proof.
  intros w.
  apply (calls_before_parent_ignore_device_arguments Sample.two_wires
           (PyInt 5) default_provider default_backend (PyStr "ibmqx4")
           default_shots (PyInt 10) ∅ {[ "verbose" := PyBool true ]} w);
    reflexivity.
Defined.

(** X14: line 112 holds what it says ("IBM Q account is now enabled"):
    the third step is entered, that is, the provider is looked up or the
    parent constructor is called, on exactly those runs on which the token
    was accepted by [enable_account] or, without a token, the lookup found
    an account. *)
Theorem delegation_iff_account_enabled wires provider backend shots kwargs w :
  existsb is_delegation
    (trace_of (IBMQDevice_init wires provider backend shots kwargs w))
  = account_enabled w kwargs.
Proof.
  unfold account_enabled, account_found.
  run_paths provider kwargs w; simpl;
    rewrite ?H2; simpl; rewrite ?H1; simpl; rewrite ?Hv; simpl;
    rewrite ?L1; simpl; rewrite ?L2; simpl; reflexivity.
Qed.

(** X15: the constructor returns exactly when the account is enabled, the
    provider resolves, and the parent constructor returns for it. *)
Theorem constructor_returns_iff wires provider backend shots kwargs w :
  outcome_of (IBMQDevice_init wires provider backend shots kwargs w) = Ok tt
  <-> account_enabled w kwargs = true /\
      exists q,
        outcome_of (resolve_provider provider w) = Ok q /\
        QiskitDevice_init w wires q backend shots kwargs = Ok tt.
Proof.
  unfold account_enabled, account_found.
  run_paths provider kwargs w; simpl;
    rewrite ?H2; simpl; rewrite ?H1; simpl; rewrite ?Hv; simpl;
    rewrite ?L1; simpl; rewrite ?L2; simpl;
    (split;
     [ intros Ho; try discriminate Ho; (split; [reflexivity|]);
       eexists; (split; [reflexivity|exact Ho])
     | intros [Ha (q & Hq & Hpar)]; try discriminate Ha; try discriminate Hq;
       simplify_eq; try exact Hpar ]).
Qed.

(** X15 at work: everything in place. *)
Lemma constructor_returns_iff_witness :
  let w := Sample2.mk_world ∅ Sample.disk_v2_session in
  outcome_of (IBMQDevice_init Sample.two_wires default_provider
                default_backend default_shots ∅ w) = Ok tt.
Proof.
  intros w.
  apply (constructor_returns_iff Sample.two_wires default_provider
           default_backend default_shots ∅ w).
  split; [reflexivity|].
  exists (PyObj "default-provider" true). split; reflexivity.
Defined.

(** X16: with a token resolved and [IBMQX_URL] unset or empty, the [url]
    keyword of [enable_account] follows [ibmqx_url] by [is not None]: an
    absent or [None] keyword gives a call without [url] (the SDK's
    default is left to apply), and any other value, the empty string
    included, is passed on as [url]. *)
Theorem keyword_url_passed_unless_none
    wires provider backend shots kwargs w :
  is_none (token_of w kwargs) = false ->
  truthy (getenv_value w "IBMQX_URL") = false ->
  let enabled :=
    List.filter is_enable
      (trace_of (IBMQDevice_init wires provider backend shots kwargs w)) in
  (kwargs !! "ibmqx_url" = None \/ kwargs !! "ibmqx_url" = Some PyNone ->
     enabled = [EnableAccount (token_of w kwargs) None]) /\
  (forall v,
      kwargs !! "ibmqx_url" = Some v -> is_none v = false ->
      enabled = [EnableAccount (token_of w kwargs) (Some v)]).
Proof.
  intros Htok He enabled; subst enabled.
  rewrite filter_step_events by (intros; reflexivity).
  rewrite account_step_enable_events, Htok.
  assert (Hu : url_of w kwargs = dict_get kwargs "ibmqx_url" PyNone)
    by (unfold url_of, py_or; rewrite He; reflexivity).
  rewrite Hu. unfold dict_get, ibmq_kwargs_of. split.
  - intros [-> | ->]; reflexivity.
  - intros v0 -> Hv0. rewrite Hv0. reflexivity.
Qed.

(** X16 at work: an empty [ibmqx_url] keyword. *)
Lemma keyword_url_passed_unless_none_witness :
  let w := Sample.mk_world {[ "IBMQX_URL" := "" ]} Sample.fresh_session in
  let kwargs : gmap string pyval :=
    {[ "ibmqx_token" := PyStr "TOKEN"; "ibmqx_url" := PyStr "" ]} in
  List.filter is_enable
    (trace_of (IBMQDevice_init Sample.two_wires default_provider
                 default_backend default_shots kwargs w))
  = [EnableAccount (token_of w kwargs) (Some (PyStr ""))].
Proof.
  intros w kwargs.
  assert (Ht : is_none (token_of w kwargs) = false) by reflexivity.
  assert (He : truthy (getenv_value w "IBMQX_URL") = false) by reflexivity.
  destruct (keyword_url_passed_unless_none Sample.two_wires default_provider
              default_backend default_shots kwargs w Ht He) as [_ Hset].
  apply (Hset (PyStr "")); reflexivity.
Defined.
